(** * MCP tool server: document search tool, tool registry, HTTP facade, client

    A shallow embedding of the Python sources

      - [database/mongodb_client.py]            ([MongoDBClient])
      - [mcp_server/tools/base_tool.py]         ([ToolOutput], [BaseTool])
      - [mcp_server/tools/mongodb_search_tool.py]
      - [mcp_server/handlers/tool_handler.py]   ([ToolHandler])
      - [mcp_server/server.py]                  (the [/execute] route)
      - [mcp_client/client.py]                  ([MCPClient])

    Python values are an inductive type, dictionaries with string keys are
    [gmap string value], exceptions are values of the type [exn], and code
    that may raise or talk to the outside world lives in the monad [M]
    (an exception monad that also records every external call). *)

From Stdlib Require Import ZArith String Ascii List.
From stdpp Require Import gmap strings list fin_maps.

Set Default Proof Using "Type".
Local Open Scope Z_scope.

(* ===================================================================== *)
(** ** Python values                                                      *)
(* ===================================================================== *)

(** What a [Dict[str, Any]] decoded from JSON, or a document read from the
    store, can hold.  [bool] is kept apart from [int]; a float is its
    IEEE-754 binary64 bit pattern; [VObjectId] is the store's native
    identifier (its 24 hex digits). *)
#[warnings="-register-all"]
Inductive value : Type :=
| VNone
| VBool (b : bool)
| VInt (n : Z)
| VFloat (bits : Z)
| VStr (s : string)
| VObjectId (hex : string)
| VList (l : list value)
| VDict (d : gmap string value).

Abbreviation dict := (gmap string value).

(** Python truthiness ([if v:], [not v], [v or w]). *)
Definition truthy (v : value) : bool :=
  match v with
  | VNone => false
  | VBool b => b
  | VInt n => negb (n =? 0)
  | VFloat bits => negb ((bits =? 0) || (bits =? 2 ^ 63))
  | VStr s => negb (String.eqb s EmptyString)
  | VObjectId _ => true
  | VList l => match l with [] => false | _ => true end
  | VDict d => negb (bool_decide (d = ∅))
  end.

(** [d.get(key, default)]. *)
Definition dict_get (d : dict) (key : string) (dflt : value) : value :=
  default dflt (d !! key).

(** [{**a, **b}]: the keys of [a], overwritten by those of [b]. *)
Definition dict_merge (a b : dict) : dict := b ∪ a.

(* ===================================================================== *)
(** ** Exceptions                                                         *)
(* ===================================================================== *)

(** One entry of a pydantic validation error: the field and what failed. *)
Inductive error_kind : Type :=
| IntType | DictType | ListType | StrType (index : nat)
| GreaterThanEqual (bound : Z) | LessThanEqual (bound : Z)
| StringType.

Record field_error : Type := FieldError { err_loc : string; err_kind : error_kind }.

(** The [Exception] subclasses the sources raise, catch or name.
    [PyMongoError] stands for the whole driver hierarchy (ConnectionFailure,
    OperationFailure, ...), [RequestException] for that of [requests];
    [OtherException] is any other subclass of [Exception], by class name. *)
Inductive exn : Type :=
| ValidationError (errors : list field_error)
| PyMongoError (msg : string)
| RequestException (msg : string)
| HTTPException (status_code : Z) (detail : string)
| TypeError (msg : string)
| AttributeError (msg : string)
| ValueError (msg : string)
| OtherException (cls msg : string).

Definition is_PyMongoError (e : exn) : bool :=
  match e with PyMongoError _ => true | _ => false end.

Definition is_RequestException (e : exn) : bool :=
  match e with RequestException _ => true | _ => false end.

Definition is_HTTPException (e : exn) : bool :=
  match e with HTTPException _ _ => true | _ => false end.

(** [except Exception]. *)
Definition is_Exception (e : exn) : bool := true.

(* ===================================================================== *)
(** ** The Python runtime and the libraries                               *)
(* ===================================================================== *)

(** Behaviour of the interpreter and of pydantic that the sources rely on
    but do not define.  The canonical cases are written out below
    ([str_lower] on ASCII text, an [int] given to an [int] field, ...);
    everything else is delegated to these operations. *)
Class PyRuntime : Type := {
  (** [str(v)] for a value *)
  py_str : value → string;
  (** [str(e)] for a pydantic [ValidationError] *)
  validation_str : list field_error → string;
  (** pydantic's coercion of a non-[int] value given to an [int] field *)
  lax_int : value → option Z;
  (** ... of a non-[dict] value given to a [Dict[str, Any]] field *)
  lax_dict : value → option dict;
  (** ... of a non-[str] item of a [List[str]] field *)
  lax_str : value → option string;
  (** ... of a non-[list] value (also [None]) given to the [List[str]]
      field whose default is [None] *)
  lax_list : value → option (option (list string));
  (** [str.lower], [str.upper], [str.strip] on text that is not pure ASCII *)
  unicode_lower : string → string;
  unicode_upper : string → string;
  unicode_strip : string → string
}.

(** *** Strings: the ASCII cases of [lower], [upper], [strip] *)

Definition ascii_code (c : ascii) : N := N_of_ascii c.

Fixpoint is_ascii (s : string) : bool :=
  match s with
  | EmptyString => true
  | String c r => (ascii_code c <? 128)%N && is_ascii r
  end.

Definition lower_char (c : ascii) : ascii :=
  let n := ascii_code c in
  if ((65 <=? n) && (n <=? 90))%N then ascii_of_N (n + 32) else c.

Definition upper_char (c : ascii) : ascii :=
  let n := ascii_code c in
  if ((97 <=? n) && (n <=? 122))%N then ascii_of_N (n - 32) else c.

Fixpoint map_string (f : ascii → ascii) (s : string) : string :=
  match s with
  | EmptyString => EmptyString
  | String c r => String (f c) (map_string f r)
  end.

(** ASCII white space as [str.strip] sees it: TAB..CR, FS..US and space. *)
Definition is_space_char (c : ascii) : bool :=
  let n := ascii_code c in
  (((9 <=? n) && (n <=? 13)) || ((28 <=? n) && (n <=? 32)))%N.

Fixpoint lstrip (s : string) : string :=
  match s with
  | EmptyString => EmptyString
  | String c r => if is_space_char c then lstrip r else s
  end.

Definition rstrip (s : string) : string := String.rev (lstrip (String.rev s)).

Section Strings.
Context `{rt : PyRuntime}.

Definition str_lower (s : string) : string :=
  if is_ascii s then map_string lower_char s else unicode_lower s.

Definition str_upper (s : string) : string :=
  if is_ascii s then map_string upper_char s else unicode_upper s.

Definition str_strip (s : string) : string :=
  if is_ascii s then rstrip (lstrip s) else unicode_strip s.

(** [str(e)] for an exception. *)
Definition exn_str (e : exn) : string :=
  match e with
  | ValidationError errors => validation_str errors
  | PyMongoError msg | RequestException msg | TypeError msg
  | AttributeError msg | ValueError msg | OtherException _ msg => msg
  | HTTPException _ detail => detail
  end.
End Strings.

(* ===================================================================== *)
(** ** Effects: exceptions and the record of external calls               *)
(* ===================================================================== *)

(** A call that leaves the process: to the document store's collection
    or to the HTTP session of the client. *)
Inductive call : Type :=
| FindCall (query : dict) (skip limit : Z)
| CountCall (query : dict)
| HttpGet (url : string)
| HttpPost (url : string) (json : value).

Inductive outcome (A : Type) : Type :=
| Return (a : A)
| Raise (e : exn).
Arguments Return {A} a.
Arguments Raise {A} e.

(** A computation: given the calls made so far, a result or an exception,
    and the calls made by then. *)
Definition M (A : Type) : Type := list call → outcome A * list call.

Definition ret {A} (a : A) : M A := λ log, (Return a, log).

Definition raise {A} (e : exn) : M A := λ log, (Raise e, log).

Definition bind {A B} (m : M A) (k : A → M B) : M B :=
  λ log, match m log with
         | (Return a, log') => k a log'
         | (Raise e, log') => (Raise e, log')
         end.

(** [try: m  except <class> as e: handler e]; an exception of another class
    goes through. *)
Definition try_except {A} (m : M A) (catches : exn → bool) (handler : exn → M A) : M A :=
  λ log, match m log with
         | (Return a, log') => (Return a, log')
         | (Raise e, log') => if catches e then handler e log' else (Raise e, log')
         end.

(** An external call: recorded, then answered by the outside world. *)
Definition external {A} (c : call) (answer : outcome A) : M A :=
  λ log, (answer, log ++ [c]).

(** A pure computation that may raise. *)
Definition lift {A} (o : outcome A) : M A := λ log, (o, log).

Declare Scope py_scope.
Delimit Scope py_scope with py.
Notation "'let!' x := m 'in' k" := (bind m (λ x, k))
  (at level 10, x name, m at level 100, k at level 200) : py_scope.
Local Open Scope py_scope.

(* ===================================================================== *)
(** ** mcp_server/tools/base_tool.py                                      *)
(* ===================================================================== *)

(** [class ToolOutput(BaseModel)]: [data] defaults to [None], [error] to
    [None], [metadata] to the empty dict. *)
Module ToolOutput.
Record t : Type := {
  success : bool;
  data : value;
  error : option string;
  metadata : dict
}.
End ToolOutput.

(** [class BaseTool(ABC)]: the two attributes and the two abstract methods. *)
Module BaseTool.
Record t : Type := {
  name : string;
  description : string;
  get_schema : dict;
  execute : dict → M ToolOutput.t
}.

(** [BaseTool.get_tool_info] *)
Definition get_tool_info (tool : t) : dict :=
  {[ "name" := VStr (name tool);
     "description" := VStr (description tool);
     "schema" := VDict (get_schema tool) ]}.
End BaseTool.

(* ===================================================================== *)
(** ** database/mongodb_client.py                                         *)
(* ===================================================================== *)

(** The driver's collection object, seen from the client: what
    [find(query).skip(skip).limit(limit)], iterated to the end, and
    [count_documents(query)] answer; either may raise. *)
Module Collection.
Record t : Type := {
  find : dict → Z → Z → outcome (list dict);
  count_documents : dict → outcome Z
}.
End Collection.

Module MongoDBClient.
Section MongoDBClient.
Context `{rt : PyRuntime}.
Variable collection : Collection.t.

(** Loop body of [search_documents]:
    [if '_id' in doc: doc['_id'] = str(doc['_id'])]. *)
Definition stringify_id (doc : dict) : dict :=
  match doc !! "_id" with
  | Some v => <["_id" := VStr (py_str v)]> doc
  | None => doc
  end.

(** [MongoDBClient.search_documents]: a [PyMongoError] is logged and
    raised again. *)
Definition search_documents (query : dict) (limit skip : Z) : M (list dict) :=
  try_except
    (let! cursor := external (FindCall query skip limit)
                      (Collection.find collection query skip limit) in
     ret (map stringify_id cursor))
    is_PyMongoError
    (λ e, raise e).

(** [MongoDBClient.count_documents]: a [PyMongoError] is logged and
    [0] is returned. *)
Definition count_documents (query : dict) : M Z :=
  try_except
    (let! count := external (CountCall query)
                     (Collection.count_documents collection query) in
     ret count)
    is_PyMongoError
    (λ e, ret 0).

(** What [get_document_by_id] asks of the libraries: [ObjectId(doc_id)],
    which gives the identifier or raises for text that is not one, and the
    collection's [find_one(filter)], which gives a document or [None]. *)
Variable object_id : string → outcome value.
Variable find_one : dict → outcome (option dict).

(** The [try] block of [get_document_by_id]; [if doc:] is false for
    [None] and for the empty document, and [doc['_id']] raises a
    [KeyError] on a document without the key. *)
Definition get_document_by_id_try (doc_id : string) : M (option dict) :=
  let! oid := lift (object_id doc_id) in
  let! doc := lift (find_one {[ "_id" := oid ]}) in
  match doc with
  | Some d =>
      if truthy (VDict d) then
        match d !! "_id" with
        | Some v => ret (Some (<["_id" := VStr (py_str v)]> d))
        | None => raise (OtherException "KeyError" "'_id'")
        end
      else ret (Some d)
  | None => ret None
  end.

(** [MongoDBClient.get_document_by_id]: any exception is logged and
    [None] is returned. *)
Definition get_document_by_id (doc_id : string) : M (option dict) :=
  try_except (get_document_by_id_try doc_id) is_Exception (λ e, ret None).
End MongoDBClient.
End MongoDBClient.

(* ===================================================================== *)
(** ** mcp_server/tools/mongodb_search_tool.py                            *)
(* ===================================================================== *)

(** [class MongoDBSearchInput(BaseModel)] *)
Module MongoDBSearchInput.
Record t : Type := {
  query : dict;
  limit : Z;
  skip : Z;
  fields : option (list string)
}.

Section Validation.
Context `{rt : PyRuntime}.

(** Each validator gives the errors of its field or the validated value;
    an absent key takes the declared default. *)

(** [query: Dict[str, Any] = Field(default_factory=dict)] *)
Definition validate_query (inputs : dict) : list field_error + dict :=
  match inputs !! "query" with
  | None => inr ∅
  | Some (VDict d) => inr d
  | Some v => match lax_dict v with
              | Some d => inr d
              | None => inl [FieldError "query" DictType]
              end
  end.

(** The integer read from the value given to an [int] field. *)
Definition coerce_int (v : value) : option Z :=
  match v with VInt n => Some n | _ => lax_int v end.

(** An [int] field with the bounds [ge] and, when given, [le]. *)
Definition validate_int (field : string) (dflt ge : Z) (le : option Z)
    (inputs : dict) : list field_error + Z :=
  match inputs !! field with
  | None => inr dflt
  | Some v =>
      match coerce_int v with
      | None => inl [FieldError field IntType]
      | Some n =>
          if n <? ge then inl [FieldError field (GreaterThanEqual ge)]
          else match le with
               | Some hi => if hi <? n then inl [FieldError field (LessThanEqual hi)]
                            else inr n
               | None => inr n
               end
      end
  end.

(** [limit: int = Field(default=10, ge=1, le=100)] *)
Definition validate_limit : dict → list field_error + Z :=
  validate_int "limit" 10 1 (Some 100).

(** [skip: int = Field(default=0, ge=0)] *)
Definition validate_skip : dict → list field_error + Z :=
  validate_int "skip" 0 0 None.

(** The items of a [List[str]], from position [i] on. *)
Fixpoint validate_items (i : nat) (items : list value) : list field_error * list string :=
  match items with
  | [] => ([], [])
  | v :: rest =>
      let '(errs, strs) := validate_items (S i) rest in
      match (match v with VStr s => Some s | _ => lax_str v end) with
      | Some s => (errs, s :: strs)
      | None => (FieldError "fields" (StrType i) :: errs, strs)
      end
  end.

(** [fields: List[str] = Field(default=None)] *)
Definition validate_fields (inputs : dict) : list field_error + option (list string) :=
  match inputs !! "fields" with
  | None => inr None
  | Some (VList items) =>
      match validate_items 0 items with
      | ([], strs) => inr (Some strs)
      | (errs, _) => inl errs
      end
  | Some v => match lax_list v with
              | Some r => inr r
              | None => inl [FieldError "fields" ListType]
              end
  end.

Definition errors_of {A} (r : list field_error + A) : list field_error :=
  match r with inl errs => errs | inr _ => [] end.

(** The constructor call of [MongoDBSearchInput] on the unpacked
    [inputs]: every field is validated, the errors of all fields are
    reported together, unknown keys are ignored. *)
Definition init (inputs : dict) : outcome t :=
  match validate_query inputs, validate_limit inputs,
        validate_skip inputs, validate_fields inputs with
  | inr q, inr l, inr s, inr f =>
      Return {| query := q; limit := l; skip := s; fields := f |}
  | rq, rl, rs, rf =>
      Raise (ValidationError (errors_of rq ++ errors_of rl ++ errors_of rs ++ errors_of rf))
  end.
End Validation.
End MongoDBSearchInput.

Module MongoDBSearchTool.
Section MongoDBSearchTool.
Context `{rt : PyRuntime}.

(** *** Field filtering (the body of [for doc in documents]) *)

(** [for field in fields: if field in doc: filtered_doc[field] = doc[field]] *)
Definition copy_fields (doc : dict) (fields : list string) (filtered_doc : dict) : dict :=
  foldl (λ acc field, match doc !! field with
                      | Some v => <[field := v]> acc
                      | None => acc
                      end) filtered_doc fields.

Definition filter_document (fields : list string) (doc : dict) : dict :=
  let filtered_doc := copy_fields doc fields ∅ in
  match doc !! "_id" with
  | Some v => <["_id" := v]> filtered_doc
  | None => filtered_doc
  end.

(** [if search_input.fields: ...]: [None] and the empty list are both
    falsy. *)
Definition filter_documents (fields : option (list string)) (documents : list dict) : list dict :=
  match fields with
  | Some (f :: fs) => map (filter_document (f :: fs)) documents
  | _ => documents
  end.

(** *** [execute] *)

Variable collection : Collection.t.

Definition search_metadata (search_input : MongoDBSearchInput.t)
    (documents : list dict) (total_count : Z) : dict :=
  {[ "total_count" := VInt total_count;
     "returned_count" := VInt (Z.of_nat (length documents));
     "query" := VDict (MongoDBSearchInput.query search_input);
     "limit" := VInt (MongoDBSearchInput.limit search_input);
     "skip" := VInt (MongoDBSearchInput.skip search_input);
     "has_more" := VBool (total_count >?
                          MongoDBSearchInput.skip search_input + Z.of_nat (length documents)) ]}.

(** The [try] block of [execute]. *)
Definition execute_try (inputs : dict) : M ToolOutput.t :=
  let! search_input := lift (MongoDBSearchInput.init inputs) in
  let! documents := MongoDBClient.search_documents collection
                      (MongoDBSearchInput.query search_input)
                      (MongoDBSearchInput.limit search_input)
                      (MongoDBSearchInput.skip search_input) in
  let documents := filter_documents (MongoDBSearchInput.fields search_input) documents in
  let! total_count := MongoDBClient.count_documents collection
                        (MongoDBSearchInput.query search_input) in
  let metadata := search_metadata search_input documents total_count in
  ret {| ToolOutput.success := true;
         ToolOutput.data := VList (VDict <$> documents);
         ToolOutput.error := None;
         ToolOutput.metadata := metadata |}.

(** The [except Exception as e] block of [execute]. *)
Definition execute_except (inputs : dict) (e : exn) : M ToolOutput.t :=
  let error_msg := "MongoDB search failed: " +:+ exn_str e in
  ret {| ToolOutput.success := false;
         ToolOutput.data := VNone;
         ToolOutput.error := Some error_msg;
         ToolOutput.metadata := {[ "query" := dict_get inputs "query" (VDict ∅) ]} |}.

Definition execute (inputs : dict) : M ToolOutput.t :=
  try_except (execute_try inputs) is_Exception (execute_except inputs).

End MongoDBSearchTool.

(** [get_schema]: the JSON schema of the inputs. *)
Definition get_schema : dict :=
  {[ "type" := VStr "object";
     "properties" := VDict
       {[ "query" := VDict
            {[ "type" := VStr "object";
               "description" := VStr "MongoDB query dictionary (e.g., {'name': 'John', 'age': {'$gt': 25}})";
               "default" := VDict ∅ ]};
          "limit" := VDict
            {[ "type" := VStr "integer";
               "description" := VStr "Maximum number of documents to return";
               "minimum" := VInt 1;
               "maximum" := VInt 100;
               "default" := VInt 10 ]};
          "skip" := VDict
            {[ "type" := VStr "integer";
               "description" := VStr "Number of documents to skip for pagination";
               "minimum" := VInt 0;
               "default" := VInt 0 ]};
          "fields" := VDict
            {[ "type" := VStr "array";
               "items" := VDict {[ "type" := VStr "string" ]};
               "description" := VStr "Specific fields to return (optional)";
               "default" := VNone ]} ]};
     "required" := VList [] ]}.

(** [MongoDBSearchTool()], over the collection of the global client. *)
Definition new `{rt : PyRuntime} (collection : Collection.t) : BaseTool.t :=
  {| BaseTool.name := "mongodb_search";
     BaseTool.description := "Search documents in MongoDB collection using query parameters";
     BaseTool.get_schema := get_schema;
     BaseTool.execute := execute collection |}.

End MongoDBSearchTool.

(* ===================================================================== *)
(** ** mcp_server/handlers/tool_handler.py                                *)
(* ===================================================================== *)

Module ToolHandler.

(** [self.tools: Dict[str, BaseTool]], in insertion order. *)
Abbreviation t := (list (string * BaseTool.t)).

(** [tools[key] = tool]: an existing key keeps its place, a new one goes
    to the end. *)
Fixpoint set_item (key : string) (tool : BaseTool.t) (tools : t) : t :=
  match tools with
  | [] => [(key, tool)]
  | (k, old) :: rest =>
      if String.eqb k key then (k, tool) :: rest
      else (k, old) :: set_item key tool rest
  end.

(** [list(self.tools.keys())] *)
Definition keys (tools : t) : list string := fst <$> tools.

(** [register_tool] *)
Definition register_tool (tool : BaseTool.t) (tools : t) : t :=
  set_item (BaseTool.name tool) tool tools.

(** [__init__]: the empty dict, then [_register_default_tools]. *)
Definition init `{rt : PyRuntime} (collection : Collection.t) : t :=
  register_tool (MongoDBSearchTool.new collection) [].

(** [get_available_tools] *)
Definition get_available_tools (tools : t) : list dict :=
  (λ entry, BaseTool.get_tool_info (snd entry)) <$> tools.

(** [get_tool]: [self.tools.get(tool_name)] *)
Fixpoint get_tool (tools : t) (tool_name : string) : option BaseTool.t :=
  match tools with
  | [] => None
  | (k, tool) :: rest => if String.eqb k tool_name then Some tool else get_tool rest tool_name
  end.

Section execute_tool.
Context `{rt : PyRuntime}.

(** The [try] block of [execute_tool]; a tool object is always truthy,
    so [not tool] holds for [None] only. *)
Definition execute_tool_try (tools : t) (tool_name : string) (inputs : dict) : M ToolOutput.t :=
  match get_tool tools tool_name with
  | None =>
      let error_msg := "Tool '" +:+ tool_name +:+ "' not found" in
      ret {| ToolOutput.success := false;
             ToolOutput.data := VNone;
             ToolOutput.error := Some error_msg;
             ToolOutput.metadata := {[ "available_tools" := VList (VStr <$> keys tools) ]} |}
  | Some tool =>
      let! result := BaseTool.execute tool inputs in
      ret result
  end.

Definition execute_tool_except (tool_name : string) (e : exn) : M ToolOutput.t :=
  let error_msg := "Tool execution error: " +:+ exn_str e in
  ret {| ToolOutput.success := false;
         ToolOutput.data := VNone;
         ToolOutput.error := Some error_msg;
         ToolOutput.metadata := {[ "tool_name" := VStr tool_name ]} |}.

Definition execute_tool (tools : t) (tool_name : string) (inputs : dict) : M ToolOutput.t :=
  try_except (execute_tool_try tools tool_name inputs) is_Exception
             (execute_tool_except tool_name).
End execute_tool.

(** The registry after the registrations [registrations], made in this
    order on the registry [tools]. *)
Definition register_all (registrations : list BaseTool.t) (tools : t) : t :=
  foldl (λ acc tool, register_tool tool acc) tools registrations.
End ToolHandler.

(* ===================================================================== *)
(** ** mcp_server/server.py                                               *)
(* ===================================================================== *)

(** [settings.MCP_VERSION] *)
Definition MCP_VERSION : string := "1.0.0".

(** [class MCPRequest(BaseModel)] *)
Module MCPRequest.
Record t : Type := {
  tool_name : string;
  inputs : dict;
  metadata : dict
}.
End MCPRequest.

(** [class MCPResponse(BaseModel)] *)
Module MCPResponse.
Record t : Type := {
  success : bool;
  data : value;
  error : option string;
  metadata : dict;
  mcp_version : string
}.

(** The constructor call [MCPResponse(success=..., data=..., error=...,
    metadata=...)].  pydantic validates every value that is given against
    the declared type of its field, and [error] is declared [str]: its
    default [None] is not validated, but an [error] given as [None] is no
    string and fails validation.  [mcp_version] is never given and takes
    its default. *)
Definition init (success : bool) (data : value) (error : option string)
    (metadata : dict) : outcome t :=
  match error with
  | Some msg =>
      Return {| success := success;
                data := data;
                error := Some msg;
                metadata := metadata;
                mcp_version := MCP_VERSION |}
  | None => Raise (ValidationError [FieldError "error" StringType])
  end.
End MCPResponse.

(** What the web framework sends back for a route. *)
Module HTTPResponse.
Inductive body : Type :=
| Model (response : MCPResponse.t)
| Json (content : dict)
| Detail (detail : string).

Record t : Type := {
  status_code : Z;
  content : body
}.

(** The framework's rule for a route function: what it returns is sent
    with status 200, an [HTTPException] with the status and detail it
    carries, and any other exception as status 500. *)
Definition of_outcome {A} (wrap : A → body) (o : outcome A) : t :=
  match o with
  | Return a => {| status_code := 200; content := wrap a |}
  | Raise (HTTPException status detail) => {| status_code := status; content := Detail detail |}
  | Raise _ => {| status_code := 500; content := Detail "Internal Server Error" |}
  end.

Definition route {A} (wrap : A → body) (m : M A) : list call → t * list call :=
  λ log, let '(o, log') := m log in (of_outcome wrap o, log').
End HTTPResponse.

(** [class ToolListResponse(BaseModel)] *)
Module ToolListResponse.
Record t : Type := {
  tools : list dict;
  count : Z;
  mcp_version : string
}.

(** The JSON object sent for the model. *)
Definition to_json (response : t) : dict :=
  {[ "tools" := VList (VDict <$> tools response);
     "count" := VInt (count response);
     "mcp_version" := VStr (mcp_version response) ]}.
End ToolListResponse.

Module Server.
Section Server.
Context `{rt : PyRuntime}.

(** The [try] block of the route function [execute_tool], over the
    dispatch operation of the global [tool_handler]. *)
Definition execute_tool_try (dispatch : string → dict → M ToolOutput.t)
    (request : MCPRequest.t) : M MCPResponse.t :=
  let! result := dispatch (MCPRequest.tool_name request) (MCPRequest.inputs request) in
  let merged_metadata := dict_merge (MCPRequest.metadata request) (ToolOutput.metadata result) in
  let! response := lift (MCPResponse.init (ToolOutput.success result)
                           (ToolOutput.data result)
                           (ToolOutput.error result)
                           merged_metadata) in
  ret response.

(** The [except Exception as e] block: [data] is not given and stays
    [None]. *)
Definition execute_tool_except (request : MCPRequest.t) (e : exn) : M MCPResponse.t :=
  let error_msg := "Tool execution failed: " +:+ exn_str e in
  lift (MCPResponse.init false VNone (Some error_msg)
          {[ "tool_name" := VStr (MCPRequest.tool_name request) ]}).

Definition execute_tool_with (dispatch : string → dict → M ToolOutput.t)
    (request : MCPRequest.t) : M MCPResponse.t :=
  try_except (execute_tool_try dispatch request) is_Exception (execute_tool_except request).

(** The route function [execute_tool] of [POST /execute]. *)
Definition execute_tool (tool_handler : ToolHandler.t) (request : MCPRequest.t) : M MCPResponse.t :=
  execute_tool_with (ToolHandler.execute_tool tool_handler) request.

(** The route function [get_tool_info] of [GET /tools/{tool_name}]:
    an [HTTPException] is raised again, anything else becomes a 500. *)
Definition get_tool_info (tool_handler : ToolHandler.t) (tool_name : string) : M dict :=
  try_except
    (match ToolHandler.get_tool tool_handler tool_name with
     | None => raise (HTTPException 404 ("Tool '" +:+ tool_name +:+ "' not found"))
     | Some tool => ret (BaseTool.get_tool_info tool)
     end)
    is_Exception
    (λ e, if is_HTTPException e then raise e
          else raise (HTTPException 500 "Failed to retrieve tool information")).

(** [POST /execute] and [GET /tools/{tool_name}] as the caller sees them. *)
Definition post_execute_with (dispatch : string → dict → M ToolOutput.t)
    (request : MCPRequest.t) : list call → HTTPResponse.t * list call :=
  HTTPResponse.route HTTPResponse.Model (execute_tool_with dispatch request).

Definition post_execute (tool_handler : ToolHandler.t) (request : MCPRequest.t)
    : list call → HTTPResponse.t * list call :=
  HTTPResponse.route HTTPResponse.Model (execute_tool tool_handler request).

Definition get_tools_name (tool_handler : ToolHandler.t) (tool_name : string)
    : list call → HTTPResponse.t * list call :=
  HTTPResponse.route HTTPResponse.Json (get_tool_info tool_handler tool_name).

(** The route function [root] of [GET /]. *)
Definition root : M dict :=
  ret {[ "message" := VStr "MCP Server is running";
         "version" := VStr MCP_VERSION;
         "status" := VStr "active" ]}.

(** The route function [health_check] of [GET /health]. *)
Definition health_check (tool_handler : ToolHandler.t) : M dict :=
  ret {[ "status" := VStr "healthy";
         "version" := VStr MCP_VERSION;
         "tools_count" := VInt (Z.of_nat (length tool_handler)) ]}.

(** The route function [list_tools] of [GET /tools]: any exception
    becomes a 500. *)
Definition list_tools (tool_handler : ToolHandler.t) : M ToolListResponse.t :=
  try_except
    (let tools := ToolHandler.get_available_tools tool_handler in
     ret {| ToolListResponse.tools := tools;
            ToolListResponse.count := Z.of_nat (length tools);
            ToolListResponse.mcp_version := MCP_VERSION |})
    is_Exception
    (λ e, raise (HTTPException 500 "Failed to retrieve tools")).

(** [GET /], [GET /health] and [GET /tools] as the caller sees them. *)
Definition get_root : list call → HTTPResponse.t * list call :=
  HTTPResponse.route HTTPResponse.Json root.

Definition get_health (tool_handler : ToolHandler.t)
    : list call → HTTPResponse.t * list call :=
  HTTPResponse.route HTTPResponse.Json (health_check tool_handler).

Definition get_tools (tool_handler : ToolHandler.t)
    : list call → HTTPResponse.t * list call :=
  HTTPResponse.route (λ response, HTTPResponse.Json (ToolListResponse.to_json response))
    (list_tools tool_handler).
End Server.
End Server.

(* ===================================================================== *)
(** ** mcp_client/client.py                                               *)
(* ===================================================================== *)

(** The HTTP session, seen from the client: what [session.get(url)] or
    [session.post(url, json=data)], followed by [raise_for_status()] and
    [json()], answer; either may raise. *)
Module Session.
Record t : Type := {
  get : string → outcome value;
  post : string → value → outcome value
}.
End Session.

(** [v.get(key, default)]: only a dict has the method. *)
Definition py_get (v : value) (key : string) (dflt : value) : M value :=
  match v with
  | VDict d => ret (dict_get d key dflt)
  | _ => raise (AttributeError "object has no attribute 'get'")
  end.

(** [len(v)], whose value is only logged: a [TypeError] for a value that
    has no length. *)
Definition py_len (v : value) : M unit :=
  match v with
  | VStr _ | VList _ | VDict _ => ret tt
  | _ => raise (TypeError "object has no len()")
  end.

(** [v[key] = x] for a string key: only a dict takes it. *)
Definition py_setitem (v : value) (key : string) (x : value) : M value :=
  match v with
  | VDict d => ret (VDict (<[key := x]> d))
  | _ => raise (TypeError "object does not support item assignment")
  end.

Module MCPClient.
Section MCPClient.
Context `{rt : PyRuntime}.
Variable server_url : string.
Variable session : Session.t.

(** [_make_request]: a [RequestException] is logged and raised again. *)
Definition _make_request (method endpoint : string) (data : value) : M value :=
  try_except
    (let url := server_url +:+ endpoint in
     if String.eqb (str_upper method) "GET" then
       external (HttpGet url) (Session.get session url)
     else if String.eqb (str_upper method) "POST" then
       external (HttpPost url data) (Session.post session url data)
     else raise (ValueError ("Unsupported HTTP method: " +:+ method)))
    is_RequestException
    (λ e, raise e).

(** The request body that [search_documents] builds. *)
Definition search_request (query : option dict) (limit skip : Z)
    (fields : option (list string)) : dict :=
  let inputs : dict :=
    {[ "query" := VDict (default ∅ query);
       "limit" := VInt limit;
       "skip" := VInt skip ]} in
  let inputs :=
    match fields with
    | Some (f :: fs) => <["fields" := VList (VStr <$> (f :: fs))]> inputs
    | _ => inputs
    end in
  {[ "tool_name" := VStr "mongodb_search";
     "inputs" := VDict inputs;
     "metadata" := VDict {[ "client_request" := VBool true; "timestamp" := VNone ]} ]}.

(** The [try] block of [search_documents]; the arguments of the logging
    calls are evaluated and may raise. *)
Definition search_documents_try (query : option dict) (limit skip : Z)
    (fields : option (list string)) : M value :=
  let request_data := search_request query limit skip fields in
  let! result := _make_request "POST" "/execute" (VDict request_data) in
  let! ok := py_get result "success" VNone in
  if truthy ok then
    let! data := py_get result "data" (VList []) in
    let! _ := py_len data in
    let! metadata := py_get result "metadata" (VDict ∅) in
    let! _ := py_get metadata "total_count" (VInt 0) in
    ret result
  else
    let! _ := py_get result "error" VNone in
    ret result.

Definition search_documents_except (e : exn) : M value :=
  ret (VDict {[ "success" := VBool false;
                "error" := VStr (exn_str e);
                "data" := VList [];
                "metadata" := VDict ∅ ]}).

(** [search_documents(query=None, limit=10, skip=0, fields=None)] *)
Definition search_documents (query : option dict) (limit skip : Z)
    (fields : option (list string)) : M value :=
  try_except (search_documents_try query limit skip fields) is_Exception
             search_documents_except.

(** One alternative of the [$or] filter of [process_prompt]. *)
Definition regex_clause (field search_terms : string) : value :=
  VDict {[ field := VDict {[ "$regex" := VStr search_terms; "$options" := VStr "i" ]} ]}.

Definition prompt_query (search_terms : string) : dict :=
  {[ "$or" := VList [ regex_clause "content" search_terms;
                      regex_clause "title" search_terms;
                      regex_clause "description" search_terms ] ]}.

(** [result["metadata"][key] = x]: the dict held by [result] is changed in
    place, so [result] shows the new entry. *)
Definition set_metadata (result : value) (key : string) (x : value) : M value :=
  let! metadata := py_get result "metadata" VNone in
  let! metadata := py_setitem metadata key x in
  py_setitem result "metadata" metadata.

(** The [try] block of [process_prompt]. *)
Definition process_prompt_try (prompt : string) : M value :=
  let search_terms := str_strip (str_lower prompt) in
  let query := prompt_query search_terms in
  let! result := search_documents (Some query) 20 0 None in
  let! metadata := py_get result "metadata" VNone in
  if truthy metadata then
    let! result := set_metadata result "original_prompt" (VStr prompt) in
    let! result := set_metadata result "query_type" (VStr "text_search") in
    ret result
  else ret result.

Definition process_prompt_except (prompt : string) (e : exn) : M value :=
  ret (VDict {[ "success" := VBool false;
                "error" := VStr ("Prompt processing failed: " +:+ exn_str e);
                "data" := VList [];
                "metadata" := VDict {[ "original_prompt" := VStr prompt ]} ]}).

Definition process_prompt (prompt : string) : M value :=
  try_except (process_prompt_try prompt) is_Exception (process_prompt_except prompt).

(** [health_check]: the reply of [GET /health], whose [status] is logged,
    or the unhealthy result for the exception. *)
Definition health_check : M value :=
  try_except
    (let! result := _make_request "GET" "/health" VNone in
     let! _ := py_get result "status" VNone in
     ret result)
    is_Exception
    (λ e, ret (VDict {[ "status" := VStr "unhealthy"; "error" := VStr (exn_str e) ]})).

(** [list_available_tools]: the [tools] entry of the reply of
    [GET /tools], whose length is logged, or the empty list. *)
Definition list_available_tools : M value :=
  try_except
    (let! result := _make_request "GET" "/tools" VNone in
     let! tools := py_get result "tools" (VList []) in
     let! _ := py_len tools in
     ret tools)
    is_Exception
    (λ e, ret (VList [])).

(** The request body that [execute_custom_tool] builds; [metadata or {}]. *)
Definition custom_request (tool_name : string) (inputs : dict) (metadata : option dict) : dict :=
  {[ "tool_name" := VStr tool_name;
     "inputs" := VDict inputs;
     "metadata" := VDict (default ∅ metadata) ]}.

(** [execute_custom_tool(tool_name, inputs, metadata=None)] *)
Definition execute_custom_tool (tool_name : string) (inputs : dict)
    (metadata : option dict) : M value :=
  try_except
    (let request_data := custom_request tool_name inputs metadata in
     let! result := _make_request "POST" "/execute" (VDict request_data) in
     let! ok := py_get result "success" VNone in
     if truthy ok then ret result
     else
       let! _ := py_get result "error" VNone in
       ret result)
    is_Exception
    (λ e, ret (VDict {[ "success" := VBool false;
                        "error" := VStr (exn_str e);
                        "data" := VNone;
                        "metadata" := VDict {[ "tool_name" := VStr tool_name ]} ]})).
End MCPClient.
End MCPClient.

(* ===================================================================== *)
(** ** main.py                                                            *)
(* ===================================================================== *)

Module Main.
Section Main.
Context `{rt : PyRuntime}.
Variable server_url : string.

(** The server as the client finds it at each attempt. *)
Variable sessions : nat → Session.t.

(** [health.get("status") == "healthy"] *)
Definition is_healthy (status : value) : bool :=
  match status with
  | VStr s => String.eqb s "healthy"
  | _ => false
  end.

(** One turn of the loop of [wait_for_server]: the health check and the
    comparison, with the bare [except: pass] around them. *)
Definition attempt_ready (attempt : nat) : M bool :=
  try_except
    (let! health := MCPClient.health_check server_url (sessions attempt) in
     let! status := py_get health "status" VNone in
     ret (is_healthy status))
    is_Exception
    (λ e, ret false).

(** [for attempt in range(...)]: the turns from [attempt] on, [remaining]
    of them; [True] at the first healthy answer, [False] at the end of
    the loop. *)
Fixpoint wait_from (attempt remaining : nat) : M bool :=
  match remaining with
  | O => ret false
  | S remaining' =>
      let! ready := attempt_ready attempt in
      if ready then ret true else wait_from (S attempt) remaining'
  end.

(** [wait_for_server], with [max_attempts = 30]. *)
Definition max_attempts : nat := 30.

Definition wait_for_server : M bool := wait_from 0 max_attempts.
End Main.
End Main.

(* ===================================================================== *)
(** ** Fixtures for the worked examples                                   *)
(* ===================================================================== *)

(** A runtime to evaluate the examples with: pydantic accepts the exact
    JSON kind of each field only, [str] of a string or of an identifier is
    its text, and text that is not ASCII is left as it is. *)
Definition strict_runtime : PyRuntime :=
  {| py_str := λ v, match v with
                    | VStr s => s
                    | VObjectId hex => hex
                    | VNone => "None"
                    | VBool true => "True"
                    | VBool false => "False"
                    | _ => "<object>"
                    end;
     validation_str := λ errors, "validation error for MongoDBSearchInput";
     lax_int := λ _, None;
     lax_dict := λ _, None;
     lax_str := λ _, None;
     lax_list := λ _, None;
     unicode_lower := λ s, s;
     unicode_upper := λ s, s;
     unicode_strip := λ s, s |}.

(** A store in which exactly the records [matching] match every filter:
    a query gives the page of them asked for, a count their number. *)
Definition paged_collection (matching : list dict) : Collection.t :=
  {| Collection.find := λ _ skip limit,
       Return (take (Z.to_nat limit) (drop (Z.to_nat skip) matching));
     Collection.count_documents := λ _, Return (Z.of_nat (length matching)) |}.

(** [count] numbered records. *)
Definition numbered_records (count : nat) : list dict :=
  (λ i : nat, ({[ "_id" := VObjectId "65f0c0ffee"; "n" := VInt (Z.of_nat i) ]} : dict))
    <$> seq 0 count.

(** The record of the field-filtering example. *)
Definition record_xab : dict :=
  {[ "_id" := VStr "x"; "a" := VInt 1; "b" := VInt 2 ]}.

(** A store whose query answers [documents] and whose count fails in the
    driver. *)
Definition count_down_collection (documents : list dict) : Collection.t :=
  {| Collection.find := λ _ _ _, Return documents;
     Collection.count_documents := λ _, Raise (PyMongoError "connection closed") |}.

(** A store that cannot be reached. *)
Definition down_collection : Collection.t :=
  {| Collection.find := λ _ _ _, Raise (PyMongoError "connection closed");
     Collection.count_documents := λ _, Raise (PyMongoError "connection closed") |}.

(** The validated form of the empty inputs: every field at its default. *)
Definition default_input : MongoDBSearchInput.t :=
  {| MongoDBSearchInput.query := ∅;
     MongoDBSearchInput.limit := 10;
     MongoDBSearchInput.skip := 0;
     MongoDBSearchInput.fields := None |}.

(** The validated form of the inputs [{fields: [a]}]. *)
Definition fields_a_input : MongoDBSearchInput.t :=
  {| MongoDBSearchInput.query := ∅;
     MongoDBSearchInput.limit := 10;
     MongoDBSearchInput.skip := 0;
     MongoDBSearchInput.fields := Some ["a"] |}.

(** A tool that answers every input with the same metadata. *)
Definition constant_tool (tool_name : string) (metadata : dict) : BaseTool.t :=
  {| BaseTool.name := tool_name;
     BaseTool.description := EmptyString;
     BaseTool.get_schema := ∅;
     BaseTool.execute := λ _, ret {| ToolOutput.success := true;
                                     ToolOutput.data := VNone;
                                     ToolOutput.error := None;
                                     ToolOutput.metadata := metadata |} |}.

(** A tool that breaks the contract of [execute] and raises. *)
Definition raising_tool (tool_name : string) (e : exn) : BaseTool.t :=
  {| BaseTool.name := tool_name;
     BaseTool.description := EmptyString;
     BaseTool.get_schema := ∅;
     BaseTool.execute := λ _, raise e |}.

(** A server that cannot be reached. *)
Definition unreachable_session : Session.t :=
  {| Session.get := λ _, Raise (RequestException "connection refused");
     Session.post := λ _ _, Raise (RequestException "connection refused") |}.

(** A server that answers every request with [reply]. *)
Definition replying_session (reply : value) : Session.t :=
  {| Session.get := λ _, Return reply;
     Session.post := λ _ _, Return reply |}.

(* ===================================================================== *)
(** ** Text predicates used in the statements                             *)
(* ===================================================================== *)

Definition starts_with (prefix s : string) : Prop := ∃ rest, s = prefix +:+ rest.

Definition contains (part s : string) : Prop := ∃ before after, s = before +:+ part +:+ after.

(* ===================================================================== *)
(** ** The two results of the search tool                                 *)
(* ===================================================================== *)

Section Results.
Context `{rt : PyRuntime}.

(** The [ToolOutput] built by the [except] block of the search tool for
    the exception [e]. *)
Definition search_failed (inputs : dict) (e : exn) : ToolOutput.t :=
  {| ToolOutput.success := false;
     ToolOutput.data := VNone;
     ToolOutput.error := Some ("MongoDB search failed: " +:+ exn_str e);
     ToolOutput.metadata := {[ "query" := dict_get inputs "query" (VDict ∅) ]} |}.

(** The [ToolOutput] built at the end of the [try] block for the records
    [cursor] read from the store and the count [total_count]. *)
Definition search_succeeded (search_input : MongoDBSearchInput.t)
    (cursor : list dict) (total_count : Z) : ToolOutput.t :=
  let documents :=
    MongoDBSearchTool.filter_documents (MongoDBSearchInput.fields search_input)
      (MongoDBClient.stringify_id <$> cursor) in
  {| ToolOutput.success := true;
     ToolOutput.data := VList (VDict <$> documents);
     ToolOutput.error := None;
     ToolOutput.metadata :=
       MongoDBSearchTool.search_metadata search_input documents total_count |}.

(** The calls [execute] makes for a validated input. *)
Definition find_call (search_input : MongoDBSearchInput.t) : call :=
  FindCall (MongoDBSearchInput.query search_input)
           (MongoDBSearchInput.skip search_input)
           (MongoDBSearchInput.limit search_input).

Definition count_call (search_input : MongoDBSearchInput.t) : call :=
  CountCall (MongoDBSearchInput.query search_input).

(** What the driver answers to them. *)
Definition find_answer (collection : Collection.t) (search_input : MongoDBSearchInput.t)
    : outcome (list dict) :=
  Collection.find collection (MongoDBSearchInput.query search_input)
    (MongoDBSearchInput.skip search_input) (MongoDBSearchInput.limit search_input).

Definition count_answer (collection : Collection.t) (search_input : MongoDBSearchInput.t)
    : outcome Z :=
  Collection.count_documents collection (MongoDBSearchInput.query search_input).

(** An input whose [limit] or [skip] is an integer (given as one, or read
    as one by pydantic) outside the declared range. *)
Definition out_of_range (inputs : dict) : Prop :=
  (∃ v n, inputs !! "limit" = Some v ∧
          MongoDBSearchInput.coerce_int v = Some n ∧ (n < 1 ∨ 100 < n)) ∨
  (∃ v n, inputs !! "skip" = Some v ∧
          MongoDBSearchInput.coerce_int v = Some n ∧ n < 0).
End Results.

(* ===================================================================== *)
(** ** The request and the results of [process_prompt]                    *)
(* ===================================================================== *)

Section PromptResults.
Context `{rt : PyRuntime}.

(** The search terms: the prompt in lower case, then stripped. *)
Definition search_terms_of (prompt : string) : string := str_strip (str_lower prompt).

(** The body of the request that [process_prompt] sends. *)
Definition prompt_request (prompt : string) : dict :=
  MCPClient.search_request (Some (MCPClient.prompt_query (search_terms_of prompt))) 20 0 None.

(** The search result [result], whose metadata is [metadata], with the
    two entries of [process_prompt] added to that metadata. *)
Definition with_prompt_metadata (prompt : string) (result metadata : dict) : dict :=
  <["metadata" := VDict (<["query_type" := VStr "text_search"]>
                           (<["original_prompt" := VStr prompt]> metadata))]> result.

(** The result built by the [except] block of [process_prompt]. *)
Definition prompt_failed (prompt : string) (e : exn) : dict :=
  {[ "success" := VBool false;
     "error" := VStr ("Prompt processing failed: " +:+ exn_str e);
     "data" := VList [];
     "metadata" := VDict {[ "original_prompt" := VStr prompt ]} ]}.
End PromptResults.

(** A well-formed answer of the server to a search. *)
Definition sample_reply : dict :=
  {[ "success" := VBool true;
     "data" := VList [];
     "error" := VNone;
     "metadata" := VDict {[ "client_request" := VBool true; "total_count" := VInt 0 ]};
     "mcp_version" := VStr "1.0.0" ]}.

(* ===================================================================== *)
(** ** Vocabulary of the further properties                               *)
(* ===================================================================== *)

(** The entry [key] of the property [property] in the schema of the
    search tool. *)
Definition schema_property (property key : string) : option value :=
  match MongoDBSearchTool.get_schema !! "properties" with
  | Some (VDict properties) =>
      match properties !! property with
      | Some (VDict entries) => entries !! key
      | _ => None
      end
  | _ => None
  end.

(** The two responses of the route function of [POST /execute]: the tool
    result with the request metadata merged in, its error being [msg],
    and the response of the [except] block for the exception [e]. *)
Definition response_merged (request : MCPRequest.t) (result : ToolOutput.t)
    (msg : string) : MCPResponse.t :=
  {| MCPResponse.success := ToolOutput.success result;
     MCPResponse.data := ToolOutput.data result;
     MCPResponse.error := Some msg;
     MCPResponse.metadata := ToolOutput.metadata result ∪ MCPRequest.metadata request;
     MCPResponse.mcp_version := MCP_VERSION |}.

Definition response_failed `{rt : PyRuntime} (request : MCPRequest.t) (e : exn)
    : MCPResponse.t :=
  {| MCPResponse.success := false;
     MCPResponse.data := VNone;
     MCPResponse.error := Some ("Tool execution failed: " +:+ exn_str e);
     MCPResponse.metadata := {[ "tool_name" := VStr (MCPRequest.tool_name request) ]};
     MCPResponse.mcp_version := MCP_VERSION |}.

(** The exception of the constructor of [MCPResponse] for an [error]
    given as [None]. *)
Definition error_not_a_string : exn := ValidationError [FieldError "error" StringType].

(** A record whose identifier, when it has one, is a string. *)
Definition id_is_string (doc : dict) : Prop :=
  ∀ v, doc !! "_id" = Some v → ∃ s, v = VStr s.

(** A registry in which every tool is stored under its own name and no
    name occurs twice. *)
Definition well_keyed (tools : ToolHandler.t) : Prop :=
  NoDup (ToolHandler.keys tools) ∧
  Forall (λ entry, fst entry = BaseTool.name (snd entry)) tools.

(** The reply of [GET /health] of a server that runs. *)
Definition healthy_reply : dict :=
  {[ "status" := VStr "healthy"; "version" := VStr "1.0.0"; "tools_count" := VInt 1 ]}.

(** A server that cannot be reached before the attempt [ready_at] and
    answers the health check from then on. *)
Definition late_server (ready_at : nat) (attempt : nat) : Session.t :=
  if (attempt <? ready_at)%nat then unreachable_session
  else replying_session (VDict healthy_reply).

(** An identifier constructor and a [find_one] for the examples: the text
    [65f0c0ffee] is the only identifier, and the store holds one record
    under it. *)
Definition sample_object_id (doc_id : string) : outcome value :=
  if String.eqb doc_id "65f0c0ffee" then Return (VObjectId doc_id)
  else Raise (OtherException "InvalidId" "not a valid ObjectId").

Definition sample_find_one (filter : dict) : outcome (option dict) :=
  Return (Some {[ "_id" := VObjectId "65f0c0ffee"; "a" := VInt 1 ]}).

(** A value that [len] accepts. *)
Definition has_len (v : value) : bool :=
  match v with
  | VStr _ | VList _ | VDict _ => true
  | _ => false
  end.

(** Whether the server behind [session] answers the health check with
    the status [healthy]. *)
Definition server_ready (server_url : string) (session : Session.t) : bool :=
  match Session.get session (server_url +:+ "/health") with
  | Return (VDict reply) => Main.is_healthy (dict_get reply "status" VNone)
  | _ => false
  end.

(* ===================================================================== *)
(** ** The monad                                                          *)
(* ===================================================================== *)

Section MonadLemmas.
Context {A B : Type}.

Lemma bind_Return (m : M A) (k : A → M B) log a log' :
  m log = (Return a, log') → bind m k log = k a log'.
Proof. intros H. unfold bind. by rewrite H. Qed.

Lemma bind_Raise (m : M A) (k : A → M B) log e log' :
  m log = (Raise e, log') → bind m k log = (Raise e, log').
Proof. intros H. unfold bind. by rewrite H. Qed.

Lemma try_except_Return (m : M A) catches handler log a log' :
  m log = (Return a, log') → try_except m catches handler log = (Return a, log').
Proof. intros H. unfold try_except. by rewrite H. Qed.

Lemma try_except_Raise (m : M A) catches handler log e log' :
  m log = (Raise e, log') → catches e = true →
  try_except m catches handler log = handler e log'.
Proof. intros H Hc. unfold try_except. by rewrite H, Hc. Qed.

Lemma try_except_pass (m : M A) catches handler log e log' :
  m log = (Raise e, log') → catches e = false →
  try_except m catches handler log = (Raise e, log').
Proof. intros H Hc. unfold try_except. by rewrite H, Hc. Qed.

(** [try: ... except Exception: <a handler that returns>] returns. *)
Lemma try_except_Exception_total (m : M A) (handler : exn → A) log :
  ∃ a log', try_except m is_Exception (λ e, ret (handler e)) log = (Return a, log').
Proof.
  unfold try_except. destruct (m log) as [[a|e] log']; simpl; eauto.
Qed.
End MonadLemmas.

(* ===================================================================== *)
(** ** The store client                                                   *)
(* ===================================================================== *)

Section StoreClient.
Context `{rt : PyRuntime}.
Variable collection : Collection.t.

Lemma search_documents_eq query limit skip log :
  MongoDBClient.search_documents collection query limit skip log =
  (match Collection.find collection query skip limit with
   | Return cursor => Return (MongoDBClient.stringify_id <$> cursor)
   | Raise e => Raise e
   end, log ++ [FindCall query skip limit]).
Proof.
  unfold MongoDBClient.search_documents, try_except, bind, external, ret, raise.
  destruct (Collection.find collection query skip limit) as [cursor|e]; [done|].
  by destruct (is_PyMongoError e).
Qed.

Lemma count_documents_eq query log :
  MongoDBClient.count_documents collection query log =
  (match Collection.count_documents collection query with
   | Return count => Return count
   | Raise e => if is_PyMongoError e then Return 0 else Raise e
   end, log ++ [CountCall query]).
Proof.
  unfold MongoDBClient.count_documents, try_except, bind, external, ret.
  destruct (Collection.count_documents collection query) as [count|e]; [done|].
  by destruct (is_PyMongoError e).
Qed.
End StoreClient.

(* ===================================================================== *)
(** ** The search tool                                                    *)
(* ===================================================================== *)

Section SearchTool.
Context `{rt : PyRuntime}.
Variable collection : Collection.t.

(** [execute], case by case. *)
Lemma execute_eq inputs log :
  MongoDBSearchTool.execute collection inputs log =
  match MongoDBSearchInput.init inputs with
  | Raise e => (Return (search_failed inputs e), log)
  | Return search_input =>
      match find_answer collection search_input with
      | Raise e => (Return (search_failed inputs e), log ++ [find_call search_input])
      | Return cursor =>
          let log' := (log ++ [find_call search_input]) ++ [count_call search_input] in
          match count_answer collection search_input with
          | Return total_count => (Return (search_succeeded search_input cursor total_count), log')
          | Raise e =>
              if is_PyMongoError e
              then (Return (search_succeeded search_input cursor 0), log')
              else (Return (search_failed inputs e), log')
          end
      end
  end.
Proof.
  unfold MongoDBSearchTool.execute, MongoDBSearchTool.execute_try, try_except, bind, lift.
  destruct (MongoDBSearchInput.init inputs) as [search_input|e]; [|done].
  rewrite search_documents_eq. unfold find_answer, count_answer.
  destruct (Collection.find _ _ _ _) as [cursor|e]; [|done].
  rewrite count_documents_eq.
  destruct (Collection.count_documents _ _) as [total_count|e]; [done|].
  by destruct (is_PyMongoError e).
Qed.

(** Validation raises nothing but a [ValidationError]. *)
Lemma init_Raise inputs e :
  MongoDBSearchInput.init inputs = Raise e → ∃ errors, e = ValidationError errors.
Proof.
  unfold MongoDBSearchInput.init.
  destruct (MongoDBSearchInput.validate_query inputs),
           (MongoDBSearchInput.validate_limit inputs),
           (MongoDBSearchInput.validate_skip inputs),
           (MongoDBSearchInput.validate_fields inputs); intros [= <-]; eauto.
Qed.

(** An error of one field makes the whole validation fail. *)
Lemma init_errors inputs :
  MongoDBSearchInput.errors_of (MongoDBSearchInput.validate_limit inputs) ≠ [] ∨
  MongoDBSearchInput.errors_of (MongoDBSearchInput.validate_skip inputs) ≠ [] →
  ∃ errors, errors ≠ [] ∧ MongoDBSearchInput.init inputs = Raise (ValidationError errors).
Proof.
  unfold MongoDBSearchInput.init. intros H.
  destruct (MongoDBSearchInput.validate_query inputs) as [eq|?],
           (MongoDBSearchInput.validate_limit inputs) as [el|?],
           (MongoDBSearchInput.validate_skip inputs) as [es|?],
           (MongoDBSearchInput.validate_fields inputs) as [ef|?];
    simpl in *; try (destruct H; congruence);
    (eexists; split; [|reflexivity]);
    intros Hnil; repeat (apply app_eq_nil in Hnil as [? Hnil]); subst;
    destruct H; congruence.
Qed.

Lemma validate_limit_out_of_range inputs v n :
  inputs !! "limit" = Some v → MongoDBSearchInput.coerce_int v = Some n →
  n < 1 ∨ 100 < n →
  MongoDBSearchInput.errors_of (MongoDBSearchInput.validate_limit inputs) ≠ [].
Proof.
  intros Hl Hv Hn. unfold MongoDBSearchInput.validate_limit, MongoDBSearchInput.validate_int.
  rewrite Hl, Hv. destruct (Z.ltb_spec n 1); [done|].
  destruct (Z.ltb_spec 100 n); [done|lia].
Qed.

Lemma validate_skip_negative inputs v n :
  inputs !! "skip" = Some v → MongoDBSearchInput.coerce_int v = Some n → n < 0 →
  MongoDBSearchInput.errors_of (MongoDBSearchInput.validate_skip inputs) ≠ [].
Proof.
  intros Hl Hv Hn. unfold MongoDBSearchInput.validate_skip, MongoDBSearchInput.validate_int.
  rewrite Hl, Hv. destruct (Z.ltb_spec n 0); [done|lia].
Qed.
End SearchTool.

(* ===================================================================== *)
(** ** Text                                                               *)
(* ===================================================================== *)

Lemma append_empty_r (s : string) : s +:+ EmptyString = s.
Proof.
  induction s as [|c s IH]; [done|].
  change (String c (s +:+ EmptyString) = String c s). by f_equal.
Qed.

Lemma append_assoc (s1 s2 s3 : string) : (s1 +:+ s2) +:+ s3 = s1 +:+ s2 +:+ s3.
Proof.
  induction s1 as [|c s1 IH]; [done|].
  change (String c ((s1 +:+ s2) +:+ s3) = String c (s1 +:+ s2 +:+ s3)). by f_equal.
Qed.

Lemma starts_with_append (prefix rest : string) : starts_with prefix (prefix +:+ rest).
Proof. by exists rest. Qed.

Lemma contains_suffix (before part : string) : contains part (before +:+ part).
Proof. exists before, EmptyString. by rewrite append_empty_r. Qed.

Lemma contains_middle (before part after : string) :
  contains part (before +:+ part +:+ after).
Proof. by exists before, after. Qed.

(* ===================================================================== *)
(** ** Failures of the search tool                                        *)
(* ===================================================================== *)

Section SearchFailures.
Context `{rt : PyRuntime}.
Variable collection : Collection.t.

(** The failure result carries the prefixed cause and echoes the raw
    [query] entry of the inputs (the empty dict when there is none). *)
Lemma search_failed_shape inputs e :
  ToolOutput.success (search_failed inputs e) = false ∧
  (∃ msg, ToolOutput.error (search_failed inputs e) = Some msg ∧
          starts_with "MongoDB search failed: " msg ∧ contains (exn_str e) msg) ∧
  ToolOutput.metadata (search_failed inputs e)
    = {[ "query" := dict_get inputs "query" (VDict ∅) ]}.
Proof.
  split; [done|]. split; [|done].
  eexists. split; [reflexivity|].
  split; [apply starts_with_append|apply contains_suffix].
Qed.

(** C1 (as amended).  For inputs that pass validation: when the paginated
    query raises, or the count raises anything but a driver error
    ([PyMongoError]), [execute] returns the failure result, whose error is
    the search-failed prefix followed by the cause and whose metadata
    echoes the raw query input.  A driver error of the count is swallowed
    by the store client, which answers 0: [execute] then succeeds with
    [total_count = 0]. *)
Theorem execute_store_failure inputs search_input log :
  MongoDBSearchInput.init inputs = Return search_input →
  (∀ e, find_answer collection search_input = Raise e →
        MongoDBSearchTool.execute collection inputs log
        = (Return (search_failed inputs e), log ++ [find_call search_input])) ∧
  (∀ cursor e,
        find_answer collection search_input = Return cursor →
        count_answer collection search_input = Raise e →
        is_PyMongoError e = false →
        MongoDBSearchTool.execute collection inputs log
        = (Return (search_failed inputs e),
           (log ++ [find_call search_input]) ++ [count_call search_input])) ∧
  (∀ cursor e,
        find_answer collection search_input = Return cursor →
        count_answer collection search_input = Raise e →
        is_PyMongoError e = true →
        MongoDBSearchTool.execute collection inputs log
        = (Return (search_succeeded search_input cursor 0),
           (log ++ [find_call search_input]) ++ [count_call search_input]) ∧
        ToolOutput.metadata (search_succeeded search_input cursor 0) !! "total_count"
        = Some (VInt 0)) ∧
  (∀ e, ToolOutput.success (search_failed inputs e) = false ∧
        (∃ msg, ToolOutput.error (search_failed inputs e) = Some msg ∧
                starts_with "MongoDB search failed: " msg ∧ contains (exn_str e) msg) ∧
        ToolOutput.metadata (search_failed inputs e)
          = {[ "query" := dict_get inputs "query" (VDict ∅) ]}).
Proof.
  intros Hinit. split; [|split; [|split]].
  - intros e Hfind. by rewrite execute_eq, Hinit, Hfind.
  - intros cursor e Hfind Hcount Hclass.
    rewrite execute_eq, Hinit, Hfind. simpl. by rewrite Hcount, Hclass.
  - intros cursor e Hfind Hcount Hclass. split; [|done].
    rewrite execute_eq, Hinit, Hfind. simpl. by rewrite Hcount, Hclass.
  - intros e. apply search_failed_shape.
Qed.

(** C3.  An input whose [limit] is an integer outside [1, 100], or whose
    [skip] is a negative integer (so [limit = 0], [limit = 101] and
    [skip = -1]), is rejected by validation: [execute]
    returns the failure result for a [ValidationError] that lists at least
    one error, and the record of store calls is unchanged (neither the
    query nor the count is made). *)
Theorem execute_rejects_out_of_range inputs log :
  out_of_range inputs →
  ∃ errors, errors ≠ [] ∧
    MongoDBSearchInput.init inputs = Raise (ValidationError errors) ∧
    MongoDBSearchTool.execute collection inputs log
    = (Return (search_failed inputs (ValidationError errors)), log) ∧
    ToolOutput.success (search_failed inputs (ValidationError errors)) = false.
Proof.
  intros Hrange.
  destruct (init_errors inputs) as (errors & Hne & Hinit).
  { destruct Hrange as [(v & n & Hl & Hv & Hn)|(v & n & Hs & Hv & Hn)].
    - left. by eapply validate_limit_out_of_range.
    - right. by eapply validate_skip_negative. }
  exists errors. split; [done|]. split; [done|].
  by rewrite execute_eq, Hinit.
Qed.
End SearchFailures.

(** The store that cannot be reached, asked with the empty inputs. *)
Lemma execute_store_failure_witness :
  @MongoDBSearchTool.execute strict_runtime down_collection ∅ []
  = (Return (@search_failed strict_runtime ∅ (PyMongoError "connection closed")),
     [FindCall ∅ 0 10]).
Proof.
  destruct (@execute_store_failure strict_runtime down_collection ∅ default_input [])
    as [Hfind _]; [reflexivity|].
  apply Hfind. reflexivity.
Defined.

(** C1 fails as stated: the driver's count fails, yet [execute] returns a
    success whose [total_count] is the invented 0 (with one record
    returned). *)
Lemma execute_count_failure_succeeds :
  count_answer (count_down_collection [record_xab]) default_input
  = Raise (PyMongoError "connection closed") ∧
  ∃ out, @MongoDBSearchTool.execute strict_runtime (count_down_collection [record_xab]) ∅ []
         = (Return out, [FindCall ∅ 0 10; CountCall ∅]) ∧
         ToolOutput.success out = true ∧
         ToolOutput.error out = None ∧
         ToolOutput.metadata out !! "total_count" = Some (VInt 0) ∧
         ToolOutput.metadata out !! "returned_count" = Some (VInt 1).
Proof.
  split; [reflexivity|].
  eexists. split; [vm_compute; reflexivity|]. by vm_compute.
Qed.

(** [limit = 101] against a store of 25 records. *)
Lemma execute_rejects_out_of_range_witness :
  ∃ errors, errors ≠ [] ∧
    @MongoDBSearchInput.init strict_runtime {[ "limit" := VInt 101 ]}
    = Raise (ValidationError errors) ∧
    @MongoDBSearchTool.execute strict_runtime (paged_collection (numbered_records 25))
      {[ "limit" := VInt 101 ]} []
    = (Return (@search_failed strict_runtime {[ "limit" := VInt 101 ]} (ValidationError errors)), []) ∧
    ToolOutput.success
      (@search_failed strict_runtime {[ "limit" := VInt 101 ]} (ValidationError errors)) = false.
Proof.
  apply (@execute_rejects_out_of_range strict_runtime).
  left. exists (VInt 101), 101. split; [reflexivity|]. split; [reflexivity|lia].
Defined.

(* ===================================================================== *)
(** ** [execute] and dispatch are total                                   *)
(* ===================================================================== *)

Section Totality.
Context `{rt : PyRuntime}.

Lemma handler_execute_tool_total (tools : ToolHandler.t) tool_name inputs log :
  ∃ out log', ToolHandler.execute_tool tools tool_name inputs log = (Return out, log').
Proof.
  unfold ToolHandler.execute_tool, ToolHandler.execute_tool_except.
  apply try_except_Exception_total.
Qed.

(** What dispatch makes of a tool that raises. *)
Lemma handler_execute_tool_Raise (tools : ToolHandler.t) tool_name inputs tool log e log' :
  ToolHandler.get_tool tools tool_name = Some tool →
  BaseTool.execute tool inputs log = (Raise e, log') →
  ToolHandler.execute_tool tools tool_name inputs log
  = (Return {| ToolOutput.success := false;
               ToolOutput.data := VNone;
               ToolOutput.error := Some ("Tool execution error: " +:+ exn_str e);
               ToolOutput.metadata := {[ "tool_name" := VStr tool_name ]} |}, log').
Proof.
  intros Hget Hexec.
  unfold ToolHandler.execute_tool, ToolHandler.execute_tool_try, try_except, bind.
  by rewrite Hget, Hexec.
Qed.

(** C2.  Whatever the inputs mapping holds and whatever the store does,
    [execute] of the search tool returns a [ToolOutput] and raises
    nothing: either the success result of a validated input, or the
    failure result [{success: false, error: <prefix and cause>,
    metadata: {query: <raw query input>}}] for the exception that was
    caught.  Dispatch through the registry returns as well, even for a
    registered tool that does raise. *)
Theorem execute_never_raises (collection : Collection.t) (inputs : dict) (log : list call) :
  (∃ out log',
     MongoDBSearchTool.execute collection inputs log = (Return out, log') ∧
     ((∃ search_input cursor total_count,
         MongoDBSearchInput.init inputs = Return search_input ∧
         out = search_succeeded search_input cursor total_count) ∨
      (∃ e, out = search_failed inputs e ∧
            ToolOutput.success out = false ∧
            ToolOutput.error out = Some ("MongoDB search failed: " +:+ exn_str e) ∧
            ToolOutput.metadata out = {[ "query" := dict_get inputs "query" (VDict ∅) ]}))) ∧
  (∀ (tools : ToolHandler.t) tool_name,
     ∃ out log', ToolHandler.execute_tool tools tool_name inputs log = (Return out, log')).
Proof.
  split; [|intros; apply handler_execute_tool_total].
  rewrite execute_eq.
  destruct (MongoDBSearchInput.init inputs) as [search_input|e] eqn:Hinit.
  - destruct (find_answer collection search_input) as [cursor|e].
    + simpl. destruct (count_answer collection search_input) as [total_count|e].
      * eexists _, _. split; [done|]. left. eauto.
      * destruct (is_PyMongoError e); eexists _, _; (split; [done|]); [left|right]; eauto.
    + eexists _, _. split; [done|]. right. eauto.
  - eexists _, _. split; [done|]. right. eauto.
Qed.
End Totality.

(* ===================================================================== *)
(** ** Field filtering                                                    *)
(* ===================================================================== *)

Section FieldFilter.
Context `{rt : PyRuntime}.

Lemma copy_fields_lookup (doc : dict) (fields : list string) (acc : dict) (k : string) :
  MongoDBSearchTool.copy_fields doc fields acc !! k =
  if decide (k ∈ fields)
  then match doc !! k with Some v => Some v | None => acc !! k end
  else acc !! k.
Proof.
  unfold MongoDBSearchTool.copy_fields.
  revert acc. induction fields as [|field fields IH]; intros acc; cbn [foldl].
  { rewrite decide_False; [done|]. by intros Hin%elem_of_nil. }
  rewrite IH. clear IH.
  destruct (decide (k = field)) as [->|Hne].
  - rewrite (decide_True (P := field ∈ field :: fields)) by apply list_elem_of_here.
    destruct (doc !! field) as [v|] eqn:Hdoc.
    + rewrite lookup_insert_eq. by case_decide.
    + by case_decide.
  - assert (acc' : (match doc !! field with
                    | Some v => <[field:=v]> acc
                    | None => acc
                    end) !! k = acc !! k).
    { destruct (doc !! field); [by rewrite lookup_insert_ne|done]. }
    rewrite acc'.
    destruct (decide (k ∈ fields)) as [Hin|Hout].
    + rewrite (decide_True (P := k ∈ field :: fields)); [done|by apply list_elem_of_further].
    + rewrite (decide_False (P := k ∈ field :: fields)); [done|].
      intros [?|?]%elem_of_cons; done.
Qed.

(** The filtered record has the requested keys and [_id], each with the
    value of the record, and nothing else. *)
Lemma filter_document_lookup (fields : list string) (doc : dict) (k : string) :
  MongoDBSearchTool.filter_document fields doc !! k =
  if decide (k ∈ fields ∨ k = "_id") then doc !! k else None.
Proof.
  unfold MongoDBSearchTool.filter_document.
  assert (Hcopy : MongoDBSearchTool.copy_fields doc fields ∅ !! k =
                  if decide (k ∈ fields) then doc !! k else None).
  { rewrite copy_fields_lookup, lookup_empty.
    case_decide; [by destruct (doc !! k)|done]. }
  destruct (decide (k = "_id")) as [->|Hne].
  - rewrite (decide_True (P := _ ∨ _)) by by right.
    destruct (doc !! "_id") as [v|] eqn:Hid; [by rewrite lookup_insert_eq|].
    rewrite Hcopy. by case_decide.
  - assert (Hid : (match doc !! "_id" with
                   | Some v => <["_id":=v]> (MongoDBSearchTool.copy_fields doc fields ∅)
                   | None => MongoDBSearchTool.copy_fields doc fields ∅
                   end) !! k = MongoDBSearchTool.copy_fields doc fields ∅ !! k).
    { destruct (doc !! "_id"); [by rewrite lookup_insert_ne|done]. }
    rewrite Hid, Hcopy.
    destruct (decide (k ∈ fields)) as [Hin|Hout].
    + rewrite (decide_True (P := _ ∨ _)); [done|by left].
    + rewrite (decide_False (P := _ ∨ _)); [done|]. by intros [?|?].
Qed.

Lemma filter_documents_length fields (documents : list dict) :
  length (MongoDBSearchTool.filter_documents fields documents) = length documents.
Proof.
  unfold MongoDBSearchTool.filter_documents.
  destruct fields as [[|f fs]|]; [done| |done]. by rewrite length_map.
Qed.
End FieldFilter.

(* ===================================================================== *)
(** ** Successful searches                                                *)
(* ===================================================================== *)

Section SuccessfulSearch.
Context `{rt : PyRuntime}.

(** A success of [execute] is the success result of a validated input,
    after exactly one query and one count. *)
Lemma execute_success_inv collection inputs log out log' :
  MongoDBSearchTool.execute collection inputs log = (Return out, log') →
  ToolOutput.success out = true →
  ∃ search_input cursor total_count,
    MongoDBSearchInput.init inputs = Return search_input ∧
    find_answer collection search_input = Return cursor ∧
    out = search_succeeded search_input cursor total_count ∧
    log' = log ++ [find_call search_input; count_call search_input].
Proof.
  rewrite execute_eq. intros Hexec Hsuccess.
  destruct (MongoDBSearchInput.init inputs) as [search_input|e]; [|by simplify_eq].
  destruct (find_answer collection search_input) as [cursor|e] eqn:Hfind; [|by simplify_eq].
  simpl in Hexec. rewrite <-(assoc_L (++)) in Hexec. simpl in Hexec.
  destruct (count_answer collection search_input) as [total_count|e].
  - simplify_eq. eauto 10.
  - destruct (is_PyMongoError e); simplify_eq. eauto 10.
Qed.

(** Validation lets only a [limit] in [1, 100] and a [skip] of at least 0
    through. *)
Lemma validate_int_range field dflt ge le inputs n :
  ge ≤ dflt → (∀ hi, le = Some hi → dflt ≤ hi) →
  MongoDBSearchInput.validate_int field dflt ge le inputs = inr n →
  ge ≤ n ∧ (∀ hi, le = Some hi → n ≤ hi).
Proof.
  unfold MongoDBSearchInput.validate_int. intros Hge Hle.
  destruct (inputs !! field) as [v|]; [|intros [= <-]; by split].
  destruct (MongoDBSearchInput.coerce_int v) as [m|]; [|done].
  destruct (Z.ltb_spec m ge); [done|].
  destruct le as [hi|].
  - destruct (Z.ltb_spec hi m); [done|]. intros [= <-]. split; [done|].
    intros ? [= <-]. done.
  - intros [= <-]. by split.
Qed.

Lemma init_range inputs search_input :
  MongoDBSearchInput.init inputs = Return search_input →
  1 ≤ MongoDBSearchInput.limit search_input ≤ 100 ∧
  0 ≤ MongoDBSearchInput.skip search_input.
Proof.
  unfold MongoDBSearchInput.init.
  destruct (MongoDBSearchInput.validate_query inputs) as [?|q]; [done|].
  destruct (MongoDBSearchInput.validate_limit inputs) as [?|l] eqn:Hl;
    [by destruct (MongoDBSearchInput.validate_skip inputs),
                 (MongoDBSearchInput.validate_fields inputs)|].
  destruct (MongoDBSearchInput.validate_skip inputs) as [?|s] eqn:Hs;
    [by destruct (MongoDBSearchInput.validate_fields inputs)|].
  destruct (MongoDBSearchInput.validate_fields inputs) as [?|f]; [done|].
  intros [= <-]. simpl.
  apply validate_int_range in Hl as [? Hhi]; [|lia|by intros ? [= <-]].
  apply validate_int_range in Hs as [? _]; [|lia|done].
  specialize (Hhi 100 eq_refl). lia.
Qed.

(** C4.  When the validated [fields] list is non-empty, the query
    returns and the count does not fail outside the driver, [execute]
    succeeds and its data is the list of the records read from the
    store, each one filtered (and every success of [execute] has that
    data); a filtered record has exactly the requested keys that the
    record has, and [_id] whenever the record has it, each with the
    record's value: other fields are dropped, requested fields that are
    absent are left out.  On a store that holds [{_id: x, a: 1, b: 2}],
    a search with [fields = [a]] returns [{_id: x, a: 1}] and one with
    [fields = [c]] returns [{_id: x}]. *)
Theorem execute_filters_fields :
  (∀ collection inputs log search_input f fs cursor,
     MongoDBSearchInput.init inputs = Return search_input →
     MongoDBSearchInput.fields search_input = Some (f :: fs) →
     find_answer collection search_input = Return cursor →
     (∀ e, count_answer collection search_input = Raise e → is_PyMongoError e = true) →
     ∃ out,
       MongoDBSearchTool.execute collection inputs log
       = (Return out, log ++ [find_call search_input; count_call search_input]) ∧
       ToolOutput.success out = true ∧
       ToolOutput.data out
       = VList (VDict <$> (MongoDBSearchTool.filter_document (f :: fs) <$>
                             (MongoDBClient.stringify_id <$> cursor)))) ∧
  (∀ collection inputs log out log' search_input f fs,
     MongoDBSearchTool.execute collection inputs log = (Return out, log') →
     ToolOutput.success out = true →
     MongoDBSearchInput.init inputs = Return search_input →
     MongoDBSearchInput.fields search_input = Some (f :: fs) →
     ∃ cursor,
       find_answer collection search_input = Return cursor ∧
       ToolOutput.data out
       = VList (VDict <$> (MongoDBSearchTool.filter_document (f :: fs) <$>
                             (MongoDBClient.stringify_id <$> cursor)))) ∧
  (∀ (fields : list string) (doc : dict) (k : string),
     MongoDBSearchTool.filter_document fields doc !! k =
     if decide (k ∈ fields ∨ k = "_id") then doc !! k else None) ∧
  MongoDBSearchTool.filter_document ["a"] record_xab
    = {[ "_id" := VStr "x"; "a" := VInt 1 ]} ∧
  MongoDBSearchTool.filter_document ["c"] record_xab
    = {[ "_id" := VStr "x" ]} ∧
  (∃ out,
     @MongoDBSearchTool.execute strict_runtime (paged_collection [record_xab])
       {[ "fields" := VList [VStr "a"] ]} []
     = (Return out, [FindCall ∅ 0 10; CountCall ∅]) ∧
     ToolOutput.success out = true ∧
     ToolOutput.data out = VList [VDict {[ "_id" := VStr "x"; "a" := VInt 1 ]}]) ∧
  (∃ out,
     @MongoDBSearchTool.execute strict_runtime (paged_collection [record_xab])
       {[ "fields" := VList [VStr "c"] ]} []
     = (Return out, [FindCall ∅ 0 10; CountCall ∅]) ∧
     ToolOutput.success out = true ∧
     ToolOutput.data out = VList [VDict {[ "_id" := VStr "x" ]}]).
Proof.
  split; [|split; [|split; [apply filter_document_lookup|]]].
  - intros collection inputs log search_input f fs cursor Hinit Hfields Hfind Hcount.
    rewrite execute_eq, Hinit, Hfind. simpl. rewrite <-(assoc_L (++)). simpl.
    destruct (count_answer collection search_input) as [total_count|e] eqn:Hc.
    + eexists. split; [reflexivity|]. split; [done|].
      unfold search_succeeded. simpl. by rewrite Hfields.
    + rewrite (Hcount e eq_refl).
      eexists. split; [reflexivity|]. split; [done|].
      unfold search_succeeded. simpl. by rewrite Hfields.
  - intros collection inputs log out log' search_input f fs Hexec Hsuccess Hinit Hfields.
    destruct (execute_success_inv _ _ _ _ _ Hexec Hsuccess)
      as (search_input' & cursor & total_count & Hinit' & Hfind & -> & _).
    rewrite Hinit in Hinit'. injection Hinit' as <-.
    exists cursor. split; [done|].
    unfold search_succeeded. simpl. by rewrite Hfields.
  - split; [by vm_compute|]. split; [by vm_compute|]. split.
    + eexists. split; [rewrite execute_eq; reflexivity|]. split; [done|]. by vm_compute.
    + eexists. split; [rewrite execute_eq; reflexivity|]. split; [done|]. by vm_compute.
Qed.

(** C5.  The metadata of a successful search: [returned_count] is the
    length of the returned data, [query] is the validated filter, the one
    the query and the count were made with, [limit] and [skip] are the
    validated inputs (within their ranges), and [has_more] says whether
    [total_count > skip + returned_count].  With 25 matching records,
    [limit=10, skip=0] gives [total_count=25, returned_count=10,
    has_more=true], and [limit=10, skip=20] gives [returned_count=5,
    has_more=false]. *)
Theorem search_metadata_invariant :
  (∀ collection inputs log out log',
     MongoDBSearchTool.execute collection inputs log = (Return out, log') →
     ToolOutput.success out = true →
     ∃ search_input documents total_count,
       MongoDBSearchInput.init inputs = Return search_input ∧
       1 ≤ MongoDBSearchInput.limit search_input ≤ 100 ∧
       0 ≤ MongoDBSearchInput.skip search_input ∧
       log' = log ++ [FindCall (MongoDBSearchInput.query search_input)
                               (MongoDBSearchInput.skip search_input)
                               (MongoDBSearchInput.limit search_input);
                      CountCall (MongoDBSearchInput.query search_input)] ∧
       ToolOutput.data out = VList (VDict <$> documents) ∧
       ToolOutput.metadata out =
         {[ "total_count" := VInt total_count;
            "returned_count" := VInt (Z.of_nat (length documents));
            "query" := VDict (MongoDBSearchInput.query search_input);
            "limit" := VInt (MongoDBSearchInput.limit search_input);
            "skip" := VInt (MongoDBSearchInput.skip search_input);
            "has_more" := VBool (total_count >? MongoDBSearchInput.skip search_input
                                                + Z.of_nat (length documents)) ]}) ∧
  (∃ out log',
     MongoDBSearchTool.execute (paged_collection (numbered_records 25))
       {[ "limit" := VInt 10; "skip" := VInt 0 ]} [] = (Return out, log') ∧
     ToolOutput.success out = true ∧
     ToolOutput.metadata out !! "total_count" = Some (VInt 25) ∧
     ToolOutput.metadata out !! "returned_count" = Some (VInt 10) ∧
     ToolOutput.metadata out !! "has_more" = Some (VBool true)) ∧
  (∃ out log',
     MongoDBSearchTool.execute (paged_collection (numbered_records 25))
       {[ "limit" := VInt 10; "skip" := VInt 20 ]} [] = (Return out, log') ∧
     ToolOutput.success out = true ∧
     ToolOutput.metadata out !! "total_count" = Some (VInt 25) ∧
     ToolOutput.metadata out !! "returned_count" = Some (VInt 5) ∧
     ToolOutput.metadata out !! "has_more" = Some (VBool false)).
Proof.
  split; [|split].
  - intros collection inputs log out log' Hexec Hsuccess.
    destruct (execute_success_inv _ _ _ _ _ Hexec Hsuccess)
      as (search_input & cursor & total_count & Hinit & Hfind & -> & ->).
    destruct (init_range _ _ Hinit) as [Hlimit Hskip].
    exists search_input,
      (MongoDBSearchTool.filter_documents (MongoDBSearchInput.fields search_input)
         (MongoDBClient.stringify_id <$> cursor)), total_count.
    split; [done|]. split; [done|]. split; [done|]. split; [done|]. by split.
  - eexists _, _. split; [rewrite execute_eq; reflexivity|]. by vm_compute.
  - eexists _, _. split; [rewrite execute_eq; reflexivity|]. by vm_compute.
Qed.
End SuccessfulSearch.

(** [fields = [a]] against a store that holds the record of the example. *)
Lemma execute_filters_fields_witness :
  ∃ out,
    @MongoDBSearchTool.execute strict_runtime (paged_collection [record_xab])
      {[ "fields" := VList [VStr "a"] ]} []
    = (Return out, [] ++ [find_call fields_a_input; count_call fields_a_input]) ∧
    ToolOutput.success out = true ∧
    ToolOutput.data out
    = VList (VDict <$> (MongoDBSearchTool.filter_document ["a"] <$>
                          (@MongoDBClient.stringify_id strict_runtime <$> [record_xab]))).
Proof.
  apply (proj1 (@execute_filters_fields strict_runtime)
           (paged_collection [record_xab]) {[ "fields" := VList [VStr "a"] ]} []
           fields_a_input "a" [] [record_xab]).
  - reflexivity.
  - reflexivity.
  - reflexivity.
  - intros e [=].
Defined.

(** The last page of 25 records: [limit = 10], [skip = 20]. *)
Lemma search_metadata_invariant_witness :
  ∃ search_input documents total_count,
    @MongoDBSearchInput.init strict_runtime {[ "limit" := VInt 10; "skip" := VInt 20 ]}
    = Return search_input ∧
    1 ≤ MongoDBSearchInput.limit search_input ≤ 100 ∧
    0 ≤ MongoDBSearchInput.skip search_input ∧
    [FindCall ∅ 20 10; CountCall ∅]
    = [] ++ [FindCall (MongoDBSearchInput.query search_input)
                      (MongoDBSearchInput.skip search_input)
                      (MongoDBSearchInput.limit search_input);
             CountCall (MongoDBSearchInput.query search_input)] ∧
    ToolOutput.data
      (@search_succeeded strict_runtime
         {| MongoDBSearchInput.query := ∅; MongoDBSearchInput.limit := 10;
            MongoDBSearchInput.skip := 20; MongoDBSearchInput.fields := None |}
         (drop 20 (numbered_records 25)) 25)
    = VList (VDict <$> documents) ∧
    ToolOutput.metadata
      (@search_succeeded strict_runtime
         {| MongoDBSearchInput.query := ∅; MongoDBSearchInput.limit := 10;
            MongoDBSearchInput.skip := 20; MongoDBSearchInput.fields := None |}
         (drop 20 (numbered_records 25)) 25)
    = {[ "total_count" := VInt total_count;
         "returned_count" := VInt (Z.of_nat (length documents));
         "query" := VDict (MongoDBSearchInput.query search_input);
         "limit" := VInt (MongoDBSearchInput.limit search_input);
         "skip" := VInt (MongoDBSearchInput.skip search_input);
         "has_more" := VBool (total_count >? MongoDBSearchInput.skip search_input
                                             + Z.of_nat (length documents)) ]}.
Proof.
  apply (proj1 (@search_metadata_invariant strict_runtime)
           (paged_collection (numbered_records 25))
           {[ "limit" := VInt 10; "skip" := VInt 20 ]}).
  - rewrite execute_eq. reflexivity.
  - reflexivity.
Defined.

(* ===================================================================== *)
(** ** The empty list of fields                                           *)
(* ===================================================================== *)

Section EmptyFields.
Context `{rt : PyRuntime}.
Variable collection : Collection.t.

(** Validation of inputs with [fields = []], against that of the same
    inputs without the key. *)
Lemma init_empty_fields inputs :
  inputs !! "fields" = Some (VList []) →
  match MongoDBSearchInput.init inputs with
  | Return search_input =>
      MongoDBSearchInput.fields search_input = Some [] ∧
      MongoDBSearchInput.init (delete "fields" inputs)
      = Return {| MongoDBSearchInput.query := MongoDBSearchInput.query search_input;
                  MongoDBSearchInput.limit := MongoDBSearchInput.limit search_input;
                  MongoDBSearchInput.skip := MongoDBSearchInput.skip search_input;
                  MongoDBSearchInput.fields := None |}
  | Raise e => MongoDBSearchInput.init (delete "fields" inputs) = Raise e
  end.
Proof.
  intros Hfields. unfold MongoDBSearchInput.init.
  assert (Hq : MongoDBSearchInput.validate_query (delete "fields" inputs)
               = MongoDBSearchInput.validate_query inputs).
  { unfold MongoDBSearchInput.validate_query. by rewrite lookup_delete_ne. }
  assert (Hl : MongoDBSearchInput.validate_limit (delete "fields" inputs)
               = MongoDBSearchInput.validate_limit inputs).
  { unfold MongoDBSearchInput.validate_limit, MongoDBSearchInput.validate_int.
    by rewrite lookup_delete_ne. }
  assert (Hs : MongoDBSearchInput.validate_skip (delete "fields" inputs)
               = MongoDBSearchInput.validate_skip inputs).
  { unfold MongoDBSearchInput.validate_skip, MongoDBSearchInput.validate_int.
    by rewrite lookup_delete_ne. }
  assert (Hf : MongoDBSearchInput.validate_fields inputs = inr (Some [])).
  { unfold MongoDBSearchInput.validate_fields. by rewrite Hfields. }
  assert (Hf' : MongoDBSearchInput.validate_fields (delete "fields" inputs) = inr None).
  { unfold MongoDBSearchInput.validate_fields. by rewrite lookup_delete_eq. }
  rewrite Hq, Hl, Hs, Hf, Hf'.
  destruct (MongoDBSearchInput.validate_query inputs),
           (MongoDBSearchInput.validate_limit inputs),
           (MongoDBSearchInput.validate_skip inputs); done.
Qed.

(** C10.  With [fields = []] in the inputs, [execute] does what it does
    for the same inputs without the [fields] key, and the data of a
    successful search is the list of the records as the store client read
    them, every key kept. *)
Theorem execute_empty_fields inputs log :
  inputs !! "fields" = Some (VList []) →
  MongoDBSearchTool.execute collection inputs log
  = MongoDBSearchTool.execute collection (delete "fields" inputs) log ∧
  (∀ out log',
     MongoDBSearchTool.execute collection inputs log = (Return out, log') →
     ToolOutput.success out = true →
     ∃ search_input cursor,
       MongoDBSearchInput.init inputs = Return search_input ∧
       MongoDBSearchInput.fields search_input = Some [] ∧
       find_answer collection search_input = Return cursor ∧
       ToolOutput.data out = VList (VDict <$> (MongoDBClient.stringify_id <$> cursor))).
Proof.
  intros Hfields. pose proof (init_empty_fields inputs Hfields) as Hinit. split.
  - rewrite !execute_eq.
    assert (Hquery : ∀ e, search_failed (delete "fields" inputs) e = search_failed inputs e).
    { intros e. unfold search_failed, dict_get. by rewrite lookup_delete_ne. }
    destruct (MongoDBSearchInput.init inputs) as [[q l s f]|e].
    + destruct Hinit as [Hf ->]. simpl in Hf. subst f.
      unfold find_answer, count_answer, find_call, count_call. simpl.
      destruct (Collection.find collection q s l) as [cursor|e]; [|by rewrite Hquery].
      destruct (Collection.count_documents collection q) as [total_count|e]; [done|].
      destruct (is_PyMongoError e); [done|by rewrite Hquery].
    + by rewrite Hinit, Hquery.
  - intros out log' Hexec Hsuccess.
    destruct (execute_success_inv _ _ _ _ _ Hexec Hsuccess)
      as (search_input & cursor & total_count & Hinit' & Hfind & -> & _).
    rewrite Hinit' in Hinit. destruct Hinit as [Hf _].
    exists search_input, cursor. split; [done|]. split; [done|]. split; [done|].
    unfold search_succeeded. simpl. by rewrite Hf.
Qed.
End EmptyFields.

(** [fields = []] against a store that holds the record of the example. *)
Lemma execute_empty_fields_witness :
  @MongoDBSearchTool.execute strict_runtime (paged_collection [record_xab])
    {[ "fields" := VList [] ]} []
  = @MongoDBSearchTool.execute strict_runtime (paged_collection [record_xab])
      (delete "fields" {[ "fields" := VList [] ]}) [].
Proof.
  apply (@execute_empty_fields strict_runtime (paged_collection [record_xab])
           {[ "fields" := VList [] ]} []).
  reflexivity.
Defined.

(* ===================================================================== *)
(** ** The registry                                                       *)
(* ===================================================================== *)

Section Registry.
Context `{rt : PyRuntime}.

Lemma get_tool_None (tools : ToolHandler.t) tool_name :
  ToolHandler.get_tool tools tool_name = None ↔ tool_name ∉ ToolHandler.keys tools.
Proof.
  unfold ToolHandler.keys.
  induction tools as [|[k tool] tools IH]; simpl.
  { split; [intros _; apply not_elem_of_nil|done]. }
  rewrite not_elem_of_cons, <-IH.
  destruct (String.eqb_spec k tool_name) as [->|Hne].
  - split; [done|]. by intros [? _].
  - split; [intros Hnone; split; [congruence|done]|by intros [_ ?]].
Qed.

Lemma get_tool_Some (tools : ToolHandler.t) tool_name :
  is_Some (ToolHandler.get_tool tools tool_name) ↔ tool_name ∈ ToolHandler.keys tools.
Proof.
  destruct (decide (tool_name ∈ ToolHandler.keys tools)) as [Hin|Hout].
  - split; [done|]. intros _. apply not_eq_None_Some. by intros Hnone%get_tool_None.
  - apply get_tool_None in Hout as Hnone. rewrite Hnone. split; [by intros []|done].
Qed.

(** Registration: the tool is found under its name afterwards. *)
Lemma get_tool_register (tools : ToolHandler.t) tool tool_name :
  ToolHandler.get_tool (ToolHandler.register_tool tool tools) tool_name =
  if String.eqb (BaseTool.name tool) tool_name then Some tool
  else ToolHandler.get_tool tools tool_name.
Proof.
  unfold ToolHandler.register_tool.
  induction tools as [|[k old] tools IH]; simpl.
  { done. }
  destruct (String.eqb_spec k (BaseTool.name tool)) as [->|Hne]; simpl.
  - by destruct (String.eqb (BaseTool.name tool) tool_name).
  - rewrite IH. destruct (String.eqb_spec k tool_name) as [->|?]; [|done].
    by rewrite (proj2 (String.eqb_neq _ _)).
Qed.

(** The names of the registry as built at start-up. *)
Lemma init_keys collection : ToolHandler.keys (ToolHandler.init collection) = ["mongodb_search"].
Proof. reflexivity. Qed.

(** C6.  Dispatch to a name that is not registered returns the failure
    result whose error is [Tool '<name>' not found] (it contains
    [not found] and the requested name) and whose metadata is
    [{available_tools: <the registered names, in registration order>}];
    no call leaves the process. *)
Theorem dispatch_unknown_tool (tools : ToolHandler.t) tool_name inputs log :
  tool_name ∉ ToolHandler.keys tools →
  ∃ out msg,
    ToolHandler.execute_tool tools tool_name inputs log = (Return out, log) ∧
    ToolOutput.success out = false ∧
    ToolOutput.error out = Some msg ∧
    msg = "Tool '" +:+ tool_name +:+ "' not found" ∧
    contains "not found" msg ∧
    contains tool_name msg ∧
    ToolOutput.metadata out
    = {[ "available_tools" := VList (VStr <$> ToolHandler.keys tools) ]}.
Proof.
  intros Hout%get_tool_None.
  eexists _, _. split.
  { unfold ToolHandler.execute_tool, ToolHandler.execute_tool_try, try_except.
    rewrite Hout. reflexivity. }
  simpl. split; [done|]. split; [done|]. split; [done|]. split; [|split; [|done]].
  - exists ("Tool '" +:+ tool_name +:+ "' "), EmptyString.
    by rewrite append_empty_r, !append_assoc.
  - apply contains_middle.
Qed.
End Registry.

(** The name [nonexistent] in the registry as built at start-up. *)
Lemma dispatch_unknown_tool_witness :
  ∃ out msg,
    @ToolHandler.execute_tool strict_runtime
      (@ToolHandler.init strict_runtime down_collection) "nonexistent" ∅ []
    = (Return out, []) ∧
    ToolOutput.success out = false ∧
    ToolOutput.error out = Some msg ∧
    msg = "Tool 'nonexistent' not found" ∧
    contains "not found" msg ∧
    contains "nonexistent" msg ∧
    ToolOutput.metadata out = {[ "available_tools" := VList [VStr "mongodb_search"] ]}.
Proof.
  apply (@dispatch_unknown_tool strict_runtime
           (@ToolHandler.init strict_runtime down_collection) "nonexistent" ∅ []).
  by vm_compute; intros [[=]|[]%elem_of_nil]%elem_of_cons.
Defined.

(* ===================================================================== *)
(** ** The [/execute] route                                               *)
(* ===================================================================== *)

Section ExecuteRoute.
Context `{rt : PyRuntime}.

Lemma dict_merge_lookup (a b : dict) (k : string) :
  dict_merge a b !! k = match b !! k with Some v => Some v | None => a !! k end.
Proof.
  unfold dict_merge. rewrite lookup_union.
  by destruct (b !! k), (a !! k).
Qed.

(** The route function, case by case on what dispatch does and on the
    error of the tool result. *)
Lemma server_execute_tool_eq dispatch request log :
  Server.execute_tool_with dispatch request log =
  match dispatch (MCPRequest.tool_name request) (MCPRequest.inputs request) log with
  | (Return result, log') =>
      match ToolOutput.error result with
      | Some msg => (Return (response_merged request result msg), log')
      | None => (Return (response_failed request error_not_a_string), log')
      end
  | (Raise e, log') => (Return (response_failed request e), log')
  end.
Proof.
  unfold Server.execute_tool_with, Server.execute_tool_try, try_except, bind.
  destruct (dispatch _ _ log) as [[result|e] log']; [|done].
  unfold lift, MCPResponse.init, response_merged, dict_merge.
  by destruct (ToolOutput.error result).
Qed.

(** C7 (the code at the failing input).  The route function does overlay
    the request metadata with the metadata of the tool result, and a
    response built from them has, at every key, the result's value or
    else the request's.  But it is built only for a tool result that
    carries an error text.  For a result whose error is [None], which
    every successful result is, the constructor of the response raises,
    and the response of the [except] block is returned: [success =
    false] and the metadata [{tool_name: <name>}] alone.  So request
    [{x: 1}] with the successful result [{x: 2, y: 3}] does not give
    [{x: 2, y: 3}] but [{tool_name: echo}]. *)
Theorem execute_metadata_overlay :
  (∀ (tools : ToolHandler.t) (request : MCPRequest.t) (log : list call),
     ∃ result response log',
       ToolHandler.execute_tool tools (MCPRequest.tool_name request)
         (MCPRequest.inputs request) log = (Return result, log') ∧
       Server.execute_tool tools request log = (Return response, log') ∧
       (∀ msg, ToolOutput.error result = Some msg →
          MCPResponse.success response = ToolOutput.success result ∧
          ∀ k, MCPResponse.metadata response !! k =
               match ToolOutput.metadata result !! k with
               | Some v => Some v
               | None => MCPRequest.metadata request !! k
               end) ∧
       (ToolOutput.error result = None →
          MCPResponse.success response = false ∧
          MCPResponse.error response
          = Some ("Tool execution failed: " +:+ exn_str error_not_a_string) ∧
          MCPResponse.metadata response
          = {[ "tool_name" := VStr (MCPRequest.tool_name request) ]})) ∧
  dict_merge {[ "x" := VInt 1 ]} {[ "x" := VInt 2; "y" := VInt 3 ]}
    = {[ "x" := VInt 2; "y" := VInt 3 ]} ∧
  (∃ response,
     Server.execute_tool
       (ToolHandler.register_tool
          (constant_tool "echo" {[ "x" := VInt 2; "y" := VInt 3 ]}) [])
       {| MCPRequest.tool_name := "echo";
          MCPRequest.inputs := ∅;
          MCPRequest.metadata := {[ "x" := VInt 1 ]} |} []
     = (Return response, []) ∧
     MCPResponse.success response = false ∧
     MCPResponse.metadata response = {[ "tool_name" := VStr "echo" ]} ∧
     MCPResponse.metadata response ≠ {[ "x" := VInt 2; "y" := VInt 3 ]}).
Proof.
  split; [|split].
  - intros tools request log.
    destruct (handler_execute_tool_total tools (MCPRequest.tool_name request)
                (MCPRequest.inputs request) log) as (result & log' & Hdispatch).
    exists result.
    destruct (ToolOutput.error result) as [msg|] eqn:Herror.
    + exists (response_merged request result msg), log'. split; [done|]. split.
      { unfold Server.execute_tool.
        by rewrite server_execute_tool_eq, Hdispatch, Herror. }
      split; [|done]. intros ? [= <-]. split; [done|].
      intros k. apply dict_merge_lookup.
    + exists (response_failed request error_not_a_string), log'. split; [done|]. split.
      { unfold Server.execute_tool.
        by rewrite server_execute_tool_eq, Hdispatch, Herror. }
      split; [done|]. by intros _.
  - by vm_compute.
  - eexists. split; [reflexivity|]. split; [done|]. split; [done|].
    simpl. intros Heq.
    assert (Hx : ({[ "tool_name" := VStr "echo" ]} : dict) !! "x" = Some (VInt 2))
      by (rewrite Heq; by vm_compute).
    by vm_compute in Hx.
Qed.

(** C8.  [POST /execute] answers every decoded request with status 200
    and a response model as body, whatever dispatch does: with the
    [success] flag and the error of the tool result when the result
    carries an error text (an unknown tool, a validation error, a store
    failure), and with [success = false] and the cause when the response
    for the result cannot be built or an exception escapes dispatch.
    The unknown tool [nonexistent] gets status 200 and [success =
    false]. *)
Theorem post_execute_status_200 :
  (∀ dispatch (request : MCPRequest.t) (log : list call),
     ∃ response log',
       Server.post_execute_with dispatch request log
       = ({| HTTPResponse.status_code := 200;
             HTTPResponse.content := HTTPResponse.Model response |}, log') ∧
       match dispatch (MCPRequest.tool_name request) (MCPRequest.inputs request) log with
       | (Return result, _) =>
           match ToolOutput.error result with
           | Some msg =>
               MCPResponse.success response = ToolOutput.success result ∧
               MCPResponse.error response = Some msg
           | None =>
               MCPResponse.success response = false ∧
               MCPResponse.error response
               = Some ("Tool execution failed: " +:+ exn_str error_not_a_string)
           end
       | (Raise e, _) =>
           MCPResponse.success response = false ∧
           MCPResponse.error response = Some ("Tool execution failed: " +:+ exn_str e)
       end) ∧
  (∀ (tools : ToolHandler.t) (request : MCPRequest.t) (log : list call),
     ∃ response log',
       Server.post_execute tools request log
       = ({| HTTPResponse.status_code := 200;
             HTTPResponse.content := HTTPResponse.Model response |}, log')) ∧
  (∀ collection,
     ∃ response,
       Server.post_execute (ToolHandler.init collection)
         {| MCPRequest.tool_name := "nonexistent";
            MCPRequest.inputs := ∅;
            MCPRequest.metadata := ∅ |} []
       = ({| HTTPResponse.status_code := 200;
             HTTPResponse.content := HTTPResponse.Model response |}, []) ∧
       MCPResponse.success response = false).
Proof.
  assert (Hwith : ∀ dispatch (request : MCPRequest.t) (log : list call),
     ∃ response log',
       Server.post_execute_with dispatch request log
       = ({| HTTPResponse.status_code := 200;
             HTTPResponse.content := HTTPResponse.Model response |}, log') ∧
       match dispatch (MCPRequest.tool_name request) (MCPRequest.inputs request) log with
       | (Return result, _) =>
           match ToolOutput.error result with
           | Some msg =>
               MCPResponse.success response = ToolOutput.success result ∧
               MCPResponse.error response = Some msg
           | None =>
               MCPResponse.success response = false ∧
               MCPResponse.error response
               = Some ("Tool execution failed: " +:+ exn_str error_not_a_string)
           end
       | (Raise e, _) =>
           MCPResponse.success response = false ∧
           MCPResponse.error response = Some ("Tool execution failed: " +:+ exn_str e)
       end).
  { intros dispatch request log.
    unfold Server.post_execute_with, HTTPResponse.route.
    rewrite server_execute_tool_eq.
    destruct (dispatch _ _ log) as [[result|e] log']; [|simpl; eauto].
    destruct (ToolOutput.error result); simpl; eauto. }
  split; [done|]. split.
  - intros tools request log.
    destruct (Hwith (ToolHandler.execute_tool tools) request log)
      as (response & log' & Hpost & _).
    by exists response, log'.
  - intros collection. eexists. split; [reflexivity|done].
Qed.

(** By contrast, [GET /tools/<name>] does answer an unknown name with
    status 404. *)
Lemma get_tools_name_unknown (tools : ToolHandler.t) tool_name log :
  tool_name ∉ ToolHandler.keys tools →
  Server.get_tools_name tools tool_name log
  = ({| HTTPResponse.status_code := 404;
        HTTPResponse.content :=
          HTTPResponse.Detail ("Tool '" +:+ tool_name +:+ "' not found") |}, log).
Proof.
  intros Hout%get_tool_None.
  unfold Server.get_tools_name, HTTPResponse.route, Server.get_tool_info, try_except.
  by rewrite Hout.
Qed.
End ExecuteRoute.

(* ===================================================================== *)
(** ** The client                                                         *)
(* ===================================================================== *)

Section Client.
Context `{rt : PyRuntime}.
Variable server_url : string.
Variable session : Session.t.

Lemma make_request_post endpoint data log :
  MCPClient._make_request server_url session "POST" endpoint data log
  = (Session.post session (server_url +:+ endpoint) data,
     log ++ [HttpPost (server_url +:+ endpoint) data]).
Proof.
  unfold MCPClient._make_request, try_except.
  change (str_upper "POST") with "POST". simpl. unfold external.
  destruct (Session.post session _ data) as [reply|e]; [done|].
  by destruct (is_RequestException e).
Qed.

(** [search_documents] raises nothing, makes one POST to [/execute] and
    returns a dict: the reply of the server or its own failure result. *)
Lemma client_search_documents_total query limit skip fields log :
  ∃ result,
    MCPClient.search_documents server_url session query limit skip fields log
    = (Return (VDict result),
       log ++ [HttpPost (server_url +:+ "/execute")
                 (VDict (MCPClient.search_request query limit skip fields))]).
Proof.
  unfold MCPClient.search_documents, MCPClient.search_documents_try,
    MCPClient.search_documents_except, try_except, bind.
  rewrite make_request_post.
  destruct (Session.post session _ _) as [reply|e]; [|simpl; eauto].
  destruct reply as [| | | | | | |d]; simpl; eauto.
  destruct (truthy (dict_get d "success" VNone)); simpl; [|eauto].
  destruct (dict_get d "data" (VList [])); simpl; eauto;
    destruct (dict_get d "metadata" (VDict ∅)); simpl; eauto.
Qed.

(** The search terms of a prompt in mixed case with blanks around it. *)
Lemma search_terms_python : search_terms_of "  Python " = "python".
Proof. reflexivity. Qed.

Lemma py_get_dict (d : dict) key dflt log :
  py_get (VDict d) key dflt log = (Return (dict_get d key dflt), log).
Proof. reflexivity. Qed.

Lemma set_metadata_dict (result metadata : dict) key x log :
  result !! "metadata" = Some (VDict metadata) →
  MCPClient.set_metadata (VDict result) key x log
  = (Return (VDict (<["metadata" := VDict (<[key := x]> metadata)]> result)), log).
Proof.
  intros Hm. unfold MCPClient.set_metadata, bind, py_get, dict_get. simpl.
  by rewrite Hm.
Qed.

(** A truthy metadata that is not a dict cannot take the entries: the
    [TypeError] is caught and the result of the [except] block returned. *)
Lemma process_prompt_bad_metadata (prompt : string) (result : dict) (v : value) log log' :
  MCPClient.search_documents server_url session
    (Some (MCPClient.prompt_query (search_terms_of prompt))) 20 0 None log
  = (Return (VDict result), log') →
  result !! "metadata" = Some v → truthy v = true → (∀ metadata, v ≠ VDict metadata) →
  MCPClient.process_prompt server_url session prompt log
  = (Return (VDict (prompt_failed prompt
                      (TypeError "object does not support item assignment"))), log').
Proof.
  intros Hsearch Hm Htruthy Hnodict.
  unfold MCPClient.process_prompt, MCPClient.process_prompt_try, try_except.
  fold (search_terms_of prompt).
  rewrite (bind_Return _ _ _ _ _ Hsearch).
  rewrite (bind_Return _ _ _ _ _ (py_get_dict _ _ _ _)).
  assert (Hget : dict_get result "metadata" VNone = v)
    by (unfold dict_get; by rewrite Hm).
  rewrite Hget, Htruthy.
  unfold MCPClient.set_metadata.
  unfold bind, py_get. rewrite Hget.
  destruct v; try done. by destruct (Hnodict d).
Qed.

(** C9 (as amended).  [process_prompt] takes as search terms the prompt in
    lower case and stripped, and searches, by one POST to [/execute],
    with the filter [$or] of a case-insensitive [$regex] on [content],
    [title] and [description], [limit = 20] and [skip = 0]; it raises
    nothing.  When the metadata of the search result is a non-empty dict,
    the returned result is the search result with [original_prompt] (the
    prompt as given) and [query_type = text_search] added to that
    metadata; when it is absent or falsy (as in the result of a failed
    request), the search result is returned as it is. *)
Theorem process_prompt_spec (prompt : string) (log : list call) :
  MCPClient.prompt_query (search_terms_of prompt)
  = {[ "$or" := VList
         [ VDict {[ "content" := VDict {[ "$regex" := VStr (str_strip (str_lower prompt));
                                          "$options" := VStr "i" ]} ]};
           VDict {[ "title" := VDict {[ "$regex" := VStr (str_strip (str_lower prompt));
                                        "$options" := VStr "i" ]} ]};
           VDict {[ "description" := VDict {[ "$regex" := VStr (str_strip (str_lower prompt));
                                              "$options" := VStr "i" ]} ]} ] ]} ∧
  prompt_request prompt !! "inputs"
  = Some (VDict {[ "query" := VDict (MCPClient.prompt_query (search_terms_of prompt));
                   "limit" := VInt 20;
                   "skip" := VInt 0 ]}) ∧
  ∃ result,
    MCPClient.search_documents server_url session
      (Some (MCPClient.prompt_query (search_terms_of prompt))) 20 0 None log
    = (Return (VDict result),
       log ++ [HttpPost (server_url +:+ "/execute") (VDict (prompt_request prompt))]) ∧
    (∀ metadata,
       result !! "metadata" = Some (VDict metadata) → metadata ≠ ∅ →
       MCPClient.process_prompt server_url session prompt log
       = (Return (VDict (with_prompt_metadata prompt result metadata)),
          log ++ [HttpPost (server_url +:+ "/execute") (VDict (prompt_request prompt))])) ∧
    (truthy (dict_get result "metadata" VNone) = false →
       MCPClient.process_prompt server_url session prompt log
       = (Return (VDict result),
          log ++ [HttpPost (server_url +:+ "/execute") (VDict (prompt_request prompt))])).
Proof.
  split; [reflexivity|]. split; [reflexivity|].
  destruct (client_search_documents_total
              (Some (MCPClient.prompt_query (search_terms_of prompt))) 20 0 None log)
    as [result Hsearch].
  exists result. split; [exact Hsearch|].
  unfold MCPClient.process_prompt, MCPClient.process_prompt_try, try_except.
  fold (search_terms_of prompt).
  rewrite (bind_Return _ _ _ _ _ Hsearch).
  rewrite (bind_Return _ _ _ _ _ (py_get_dict _ _ _ _)).
  split.
  - intros metadata Hm Hne.
    assert (Hget : dict_get result "metadata" VNone = VDict metadata)
      by (unfold dict_get; by rewrite Hm).
    rewrite Hget. simpl. rewrite bool_decide_eq_false_2 by done. simpl.
    rewrite (bind_Return _ _ _ _ _ (set_metadata_dict _ _ _ _ _ Hm)).
    rewrite (bind_Return _ _ _ _ _
               (set_metadata_dict _ _ "query_type" (VStr "text_search") _
                  (lookup_insert_eq _ _ _))).
    unfold ret, with_prompt_metadata. by rewrite insert_insert_eq.
  - intros Hfalsy. by rewrite Hfalsy.
Qed.
End Client.

(** The prompt [  Python ] against a server that answers with a
    well-formed result. *)
Lemma process_prompt_spec_witness :
  @MCPClient.process_prompt strict_runtime "http://localhost:8000"
    (replying_session (VDict sample_reply)) "  Python " []
  = (Return (VDict (with_prompt_metadata "  Python " sample_reply
                      {[ "client_request" := VBool true; "total_count" := VInt 0 ]})),
     [HttpPost "http://localhost:8000/execute"
        (VDict (@prompt_request strict_runtime "  Python "))]).
Proof.
  destruct (@process_prompt_spec strict_runtime "http://localhost:8000"
              (replying_session (VDict sample_reply)) "  Python " [])
    as (_ & _ & result & Hsearch & Hadd & _).
  assert (result = sample_reply) as ->.
  { vm_compute in Hsearch. injection Hsearch as <-. by vm_compute. }
  apply Hadd; [reflexivity|]. by vm_compute.
Defined.

(** C9 fails as stated: the server cannot be reached, and the result that
    [process_prompt] returns for the prompt [python] has the empty
    metadata of the failed search, without [original_prompt] and without
    [query_type]. *)
Lemma process_prompt_unreachable :
  ∃ result log,
    @MCPClient.process_prompt strict_runtime "http://localhost:8000"
      unreachable_session "python" [] = (Return (VDict result), log) ∧
    result !! "success" = Some (VBool false) ∧
    result !! "metadata" = Some (VDict ∅).
Proof. eexists _, _. split; [by vm_compute|]. by vm_compute. Qed.

(* ===================================================================== *)
(** ** Further properties of the search tool                              *)
(* ===================================================================== *)

Section SearchToolMore.
Context `{rt : PyRuntime}.

(** X1.  The store calls of [execute]: none when validation fails; the
    query alone when the query raises; the query and then the count, on
    the same filter, when the query returns.  The query is only ever made
    with a limit in [1, 100] and a skip of at least 0. *)
Theorem execute_store_calls (collection : Collection.t) (inputs : dict) (log : list call) :
  ∃ out calls,
    MongoDBSearchTool.execute collection inputs log = (Return out, log ++ calls) ∧
    ((calls = [] ∧ ToolOutput.success out = false ∧
      ∃ errors, MongoDBSearchInput.init inputs = Raise (ValidationError errors)) ∨
     (∃ search_input,
        MongoDBSearchInput.init inputs = Return search_input ∧
        1 ≤ MongoDBSearchInput.limit search_input ≤ 100 ∧
        0 ≤ MongoDBSearchInput.skip search_input ∧
        ((calls = [find_call search_input] ∧ ToolOutput.success out = false ∧
          ∃ e, find_answer collection search_input = Raise e) ∨
         (calls = [find_call search_input; count_call search_input] ∧
          ∃ cursor, find_answer collection search_input = Return cursor)))).
Proof.
  rewrite execute_eq.
  destruct (MongoDBSearchInput.init inputs) as [search_input|e] eqn:Hinit.
  - destruct (init_range _ _ Hinit) as [Hlimit Hskip].
    destruct (find_answer collection search_input) as [cursor|e] eqn:Hfind.
    + simpl. rewrite <-(assoc_L (++)). simpl.
      destruct (count_answer collection search_input) as [total_count|e];
        [|destruct (is_PyMongoError e)];
        eexists _, _; (split; [reflexivity|]); right; exists search_input;
        (split; [done|]); (split; [done|]); (split; [done|]); right; eauto.
    + eexists _, _. split; [reflexivity|]. right. exists search_input.
      split; [done|]. split; [done|]. split; [done|]. left. eauto.
  - destruct (init_Raise _ _ Hinit) as [errors ->].
    exists (search_failed inputs (ValidationError errors)), [].
    rewrite app_nil_r. split; [done|]. left. eauto.
Qed.

Lemma init_insert_unknown inputs k v :
  k ≠ "query" → k ≠ "limit" → k ≠ "skip" → k ≠ "fields" →
  MongoDBSearchInput.init (<[k := v]> inputs) = MongoDBSearchInput.init inputs.
Proof.
  intros Hq Hl Hs Hf.
  unfold MongoDBSearchInput.init, MongoDBSearchInput.validate_query,
    MongoDBSearchInput.validate_limit, MongoDBSearchInput.validate_skip,
    MongoDBSearchInput.validate_int, MongoDBSearchInput.validate_fields.
  by rewrite !lookup_insert_ne.
Qed.

(** X2.  A key of the inputs other than [query], [limit], [skip] and
    [fields] changes nothing: [execute] gives the same result and makes
    the same store calls with it as without it. *)
Theorem execute_ignores_unknown_keys (collection : Collection.t) inputs k v log :
  k ≠ "query" → k ≠ "limit" → k ≠ "skip" → k ≠ "fields" →
  MongoDBSearchTool.execute collection (<[k := v]> inputs) log
  = MongoDBSearchTool.execute collection inputs log.
Proof.
  intros Hq Hl Hs Hf. rewrite !execute_eq, init_insert_unknown by done.
  assert (Hfailed : ∀ e, search_failed (<[k := v]> inputs) e = search_failed inputs e).
  { intros e. unfold search_failed, dict_get. by rewrite lookup_insert_ne. }
  destruct (MongoDBSearchInput.init inputs) as [search_input|e]; [|by rewrite Hfailed].
  destruct (find_answer collection search_input); [|by rewrite Hfailed].
  simpl. destruct (count_answer collection search_input) as [|e]; [done|].
  destruct (is_PyMongoError e); [done|by rewrite Hfailed].
Qed.

Lemma validate_items_strings (i : nat) (strs : list string) :
  MongoDBSearchInput.validate_items i (VStr <$> strs) = ([], strs).
Proof.
  revert i. induction strs as [|s strs IH]; intros i; [done|].
  simpl. by rewrite IH.
Qed.

(** X3.  Inputs in which every field that is given has the JSON kind of
    its declaration and is within its bounds pass validation, as they
    are given, and every field that is absent takes its default: [{}]
    for [query], 10 for [limit], 0 for [skip], no list for [fields]. *)
Theorem init_accepts_canonical (inputs : dict)
    (q : option dict) (l s : option Z) (fs : option (list string)) :
  inputs !! "query" = VDict <$> q →
  inputs !! "limit" = VInt <$> l →
  inputs !! "skip" = VInt <$> s →
  inputs !! "fields" = (λ strs, VList (VStr <$> strs)) <$> fs →
  (∀ n, l = Some n → 1 ≤ n ≤ 100) →
  (∀ n, s = Some n → 0 ≤ n) →
  MongoDBSearchInput.init inputs
  = Return {| MongoDBSearchInput.query := default ∅ q;
              MongoDBSearchInput.limit := default 10 l;
              MongoDBSearchInput.skip := default 0 s;
              MongoDBSearchInput.fields := fs |}.
Proof.
  intros Hq Hl Hs Hf Hlr Hsr.
  unfold MongoDBSearchInput.init, MongoDBSearchInput.validate_query,
    MongoDBSearchInput.validate_limit, MongoDBSearchInput.validate_skip,
    MongoDBSearchInput.validate_int, MongoDBSearchInput.validate_fields.
  rewrite Hq, Hl, Hs, Hf.
  destruct q as [q|], l as [l|], s as [s|], fs as [fs|]; simpl;
    rewrite ?validate_items_strings;
    repeat match goal with
    | H : ∀ n, Some ?x = Some n → _ |- _ => specialize (H x eq_refl)
    end;
    repeat match goal with
    | |- context [?a <? ?b] => destruct (Z.ltb_spec a b); [lia|]
    end; done.
Qed.

(** X4.  The schema that the tool publishes agrees with the validation:
    its [minimum] and [maximum] of [limit] are the bounds within which an
    integer limit is accepted, its [minimum] of [skip] is the least skip
    accepted, and its defaults are the values that absent keys take. *)
Theorem schema_matches_validation :
  ∃ lo hi least dflt_limit dflt_skip,
    schema_property "limit" "minimum" = Some (VInt lo) ∧
    schema_property "limit" "maximum" = Some (VInt hi) ∧
    schema_property "limit" "default" = Some (VInt dflt_limit) ∧
    schema_property "skip" "minimum" = Some (VInt least) ∧
    schema_property "skip" "maximum" = None ∧
    schema_property "skip" "default" = Some (VInt dflt_skip) ∧
    schema_property "query" "default" = Some (VDict ∅) ∧
    schema_property "fields" "default" = Some VNone ∧
    MongoDBSearchTool.get_schema !! "required" = Some (VList []) ∧
    ∀ inputs : dict,
      (∀ n, inputs !! "limit" = Some (VInt n) →
            MongoDBSearchInput.validate_limit inputs = inr n ↔ lo ≤ n ≤ hi) ∧
      (∀ n, inputs !! "skip" = Some (VInt n) →
            MongoDBSearchInput.validate_skip inputs = inr n ↔ least ≤ n) ∧
      (inputs !! "limit" = None →
       MongoDBSearchInput.validate_limit inputs = inr dflt_limit) ∧
      (inputs !! "skip" = None →
       MongoDBSearchInput.validate_skip inputs = inr dflt_skip) ∧
      (inputs !! "query" = None → MongoDBSearchInput.validate_query inputs = inr ∅) ∧
      (inputs !! "fields" = None → MongoDBSearchInput.validate_fields inputs = inr None).
Proof.
  exists 1, 100, 0, 10, 0.
  do 9 (split; [by vm_compute|]).
  intros inputs.
  unfold MongoDBSearchInput.validate_limit, MongoDBSearchInput.validate_skip,
    MongoDBSearchInput.validate_int, MongoDBSearchInput.validate_query,
    MongoDBSearchInput.validate_fields.
  split; [|split; [|split; [|split; [|split]]]].
  - intros n ->. simpl.
    destruct (Z.ltb_spec n 1); [split; [done|lia]|].
    destruct (Z.ltb_spec 100 n); [split; [done|lia]|]. split; [lia|done].
  - intros n ->. simpl.
    destruct (Z.ltb_spec n 0); [split; [done|lia]|]. split; [lia|done].
  - by intros ->.
  - by intros ->.
  - by intros ->.
  - by intros ->.
Qed.
End SearchToolMore.

(** The flag [verbose], which the tool does not know. *)
Lemma execute_ignores_unknown_keys_witness :
  @MongoDBSearchTool.execute strict_runtime (paged_collection (numbered_records 25))
    (<["verbose" := VBool true]> {[ "limit" := VInt 5 ]}) []
  = @MongoDBSearchTool.execute strict_runtime (paged_collection (numbered_records 25))
      {[ "limit" := VInt 5 ]} [].
Proof.
  by apply (@execute_ignores_unknown_keys strict_runtime).
Defined.

(** A limit and a list of fields, the other keys absent. *)
Lemma init_accepts_canonical_witness :
  @MongoDBSearchInput.init strict_runtime
    {[ "limit" := VInt 100; "fields" := VList [VStr "a"; VStr "b"] ]}
  = Return {| MongoDBSearchInput.query := ∅;
              MongoDBSearchInput.limit := 100;
              MongoDBSearchInput.skip := 0;
              MongoDBSearchInput.fields := Some ["a"; "b"] |}.
Proof.
  apply (@init_accepts_canonical strict_runtime _ None (Some 100) None (Some ["a"; "b"]));
    try reflexivity.
  - intros n [= <-]. lia.
  - intros n [=].
Defined.

(* ===================================================================== *)
(** ** Further properties of field filtering and of the records returned  *)
(* ===================================================================== *)

Section RecordsReturned.
Context `{rt : PyRuntime}.

(** X5.  A filtered record is a part of the record: it holds no key and
    no value that the record does not hold, its keys are the keys of the
    record that are requested or are [_id], and filtering it again
    changes nothing. *)
Theorem filter_document_part (fields : list string) (doc : dict) :
  MongoDBSearchTool.filter_document fields doc ⊆ doc ∧
  dom (MongoDBSearchTool.filter_document fields doc)
  = dom doc ∩ (list_to_set fields ∪ {["_id"]}) ∧
  MongoDBSearchTool.filter_document fields (MongoDBSearchTool.filter_document fields doc)
  = MongoDBSearchTool.filter_document fields doc.
Proof.
  split; [|split].
  - apply map_subseteq_spec. intros k v. rewrite filter_document_lookup.
    by case_decide.
  - apply set_eq. intros k.
    rewrite elem_of_intersection, elem_of_union, elem_of_singleton,
      elem_of_list_to_set, !elem_of_dom, filter_document_lookup.
    case_decide as Hk; [tauto|]. split; [by intros []|tauto].
  - apply map_eq. intros k. rewrite !filter_document_lookup.
    by case_decide.
Qed.

(** X6.  Only the set of requested names counts: two lists with the same
    members, whatever their order and their repetitions, give the same
    filtered record. *)
Theorem filter_document_same_members (fields1 fields2 : list string) (doc : dict) :
  (∀ k, k ∈ fields1 ↔ k ∈ fields2) →
  MongoDBSearchTool.filter_document fields1 doc
  = MongoDBSearchTool.filter_document fields2 doc.
Proof.
  intros Hsame. apply map_eq. intros k. rewrite !filter_document_lookup.
  destruct (decide (k ∈ fields1 ∨ k = "_id")) as [H1|H1],
           (decide (k ∈ fields2 ∨ k = "_id")) as [H2|H2]; try done.
  - destruct H2. destruct H1 as [?%Hsame|?]; tauto.
  - destruct H1. destruct H2 as [?%Hsame|?]; tauto.
Qed.

Lemma stringify_id_lookup (doc : dict) (k : string) :
  MongoDBClient.stringify_id doc !! k =
  if decide (k = "_id") then (λ v, VStr (py_str v)) <$> doc !! "_id" else doc !! k.
Proof.
  unfold MongoDBClient.stringify_id.
  destruct (doc !! "_id") as [v|] eqn:Hid.
  - case_decide as Hk; [subst; by rewrite lookup_insert_eq|by rewrite lookup_insert_ne].
  - case_decide as Hk; [by subst|done].
Qed.

(** X7.  The data of a successful search has one record for each record
    that the store answered, in the same order; in each of them the
    identifier, when there is one, is a string ([str] of the stored
    identifier), and every other key that is kept has the stored value. *)
Theorem execute_normalises_ids (collection : Collection.t) inputs log out log' :
  MongoDBSearchTool.execute collection inputs log = (Return out, log') →
  ToolOutput.success out = true →
  ∃ search_input cursor documents,
    MongoDBSearchInput.init inputs = Return search_input ∧
    find_answer collection search_input = Return cursor ∧
    ToolOutput.data out = VList (VDict <$> documents) ∧
    length documents = length cursor ∧
    ∀ i stored,
      cursor !! i = Some stored →
      ∃ returned,
        documents !! i = Some returned ∧
        id_is_string returned ∧
        returned !! "_id" = (λ v, VStr (py_str v)) <$> stored !! "_id" ∧
        (∀ k v, k ≠ "_id" → returned !! k = Some v → stored !! k = Some v).
Proof.
  intros Hexec Hsuccess.
  destruct (execute_success_inv _ _ _ _ _ Hexec Hsuccess)
    as (search_input & cursor & total_count & Hinit & Hfind & -> & _).
  exists search_input, cursor. eexists. split; [done|]. split; [done|].
  split; [reflexivity|]. split.
  { by rewrite filter_documents_length, length_fmap. }
  intros i stored Hi.
  unfold MongoDBSearchTool.filter_documents.
  destruct (MongoDBSearchInput.fields search_input) as [[|f fs]|].
  1,3: exists (MongoDBClient.stringify_id stored);
       (split; [by rewrite list_lookup_fmap, Hi|]);
       (split; [intros v; rewrite stringify_id_lookup; simpl;
                destruct (stored !! "_id"); intros [= <-]; eauto|]);
       (split; [by rewrite stringify_id_lookup|]);
       intros k v Hk; rewrite stringify_id_lookup; by case_decide.
  exists (MongoDBSearchTool.filter_document (f :: fs) (MongoDBClient.stringify_id stored)).
  split; [by rewrite !list_lookup_fmap, Hi|].
  assert (Hid : MongoDBSearchTool.filter_document (f :: fs)
                  (MongoDBClient.stringify_id stored) !! "_id"
                = (λ v, VStr (py_str v)) <$> stored !! "_id").
  { rewrite filter_document_lookup, decide_True by by right.
    by rewrite stringify_id_lookup. }
  split; [|split; [done|]].
  - intros v. rewrite Hid. destruct (stored !! "_id"); intros [= <-]; eauto.
  - intros k v Hk. rewrite filter_document_lookup. case_decide; [|done].
    rewrite stringify_id_lookup. by case_decide.
Qed.

(** X8.  Against a store that holds [matching] as the records matching
    the filter and pages through them, a validated search returns the
    page asked for: [returned_count] is the smaller of [limit] and the
    number of records from [skip] on, [total_count] is their number, and
    [has_more] is true exactly when records remain after the page. *)
Theorem execute_pages (matching : list dict) inputs search_input log :
  MongoDBSearchInput.init inputs = Return search_input →
  ∃ out,
    MongoDBSearchTool.execute (paged_collection matching) inputs log
    = (Return out, log ++ [find_call search_input; count_call search_input]) ∧
    ToolOutput.success out = true ∧
    ToolOutput.metadata out !! "total_count" = Some (VInt (Z.of_nat (length matching))) ∧
    ToolOutput.metadata out !! "returned_count"
    = Some (VInt (Z.min (MongoDBSearchInput.limit search_input)
                        (Z.max 0 (Z.of_nat (length matching)
                                  - MongoDBSearchInput.skip search_input)))) ∧
    ToolOutput.metadata out !! "has_more"
    = Some (VBool (bool_decide (MongoDBSearchInput.skip search_input
                                + MongoDBSearchInput.limit search_input
                                < Z.of_nat (length matching)))).
Proof.
  intros Hinit. destruct (init_range _ _ Hinit) as [Hlimit Hskip].
  set (cursor := take (Z.to_nat (MongoDBSearchInput.limit search_input))
                   (drop (Z.to_nat (MongoDBSearchInput.skip search_input)) matching)).
  exists (search_succeeded search_input cursor (Z.of_nat (length matching))).
  split.
  { rewrite execute_eq, Hinit. unfold find_answer, count_answer. simpl.
    by rewrite <-(assoc_L (++)). }
  split; [done|]. split; [done|].
  unfold search_succeeded, MongoDBSearchTool.search_metadata.
  cbn [ToolOutput.metadata].
  set (documents := MongoDBSearchTool.filter_documents
                      (MongoDBSearchInput.fields search_input)
                      (MongoDBClient.stringify_id <$> cursor)).
  assert (Hlen : Z.of_nat (length documents)
                 = Z.min (MongoDBSearchInput.limit search_input)
                     (Z.max 0 (Z.of_nat (length matching)
                               - MongoDBSearchInput.skip search_input))).
  { unfold documents, cursor.
    rewrite filter_documents_length, length_fmap, length_take, length_drop. lia. }
  rewrite Hlen. split.
  { rewrite lookup_insert_ne by done. by rewrite lookup_insert_eq. }
  do 5 (rewrite lookup_insert_ne by done). rewrite lookup_singleton_eq.
  do 2 f_equal. rewrite Z.gtb_ltb.
  destruct (Z.ltb_spec
              (MongoDBSearchInput.skip search_input
               + Z.min (MongoDBSearchInput.limit search_input)
                   (Z.max 0 (Z.of_nat (length matching)
                             - MongoDBSearchInput.skip search_input)))
              (Z.of_nat (length matching)));
    [rewrite bool_decide_eq_true_2|rewrite bool_decide_eq_false_2]; [done|lia|done|lia].
Qed.
End RecordsReturned.

(** The fields [b, a, a] against the fields [a, b]. *)
Lemma filter_document_same_members_witness :
  MongoDBSearchTool.filter_document ["b"; "a"; "a"] record_xab
  = MongoDBSearchTool.filter_document ["a"; "b"] record_xab.
Proof.
  apply filter_document_same_members.
  intros k. rewrite !elem_of_cons, !elem_of_nil. tauto.
Defined.

(** The second page of five of a store of seven records: two records. *)
Lemma execute_normalises_ids_witness :
  ∃ search_input cursor documents,
    @MongoDBSearchInput.init strict_runtime {[ "limit" := VInt 5; "skip" := VInt 5 ]}
    = Return search_input ∧
    find_answer (paged_collection (numbered_records 7)) search_input = Return cursor ∧
    ToolOutput.data
      (@search_succeeded strict_runtime
         {| MongoDBSearchInput.query := ∅; MongoDBSearchInput.limit := 5;
            MongoDBSearchInput.skip := 5; MongoDBSearchInput.fields := None |}
         (drop 5 (numbered_records 7)) 7)
    = VList (VDict <$> documents) ∧
    length documents = length cursor ∧
    ∀ i stored,
      cursor !! i = Some stored →
      ∃ returned,
        documents !! i = Some returned ∧
        id_is_string returned ∧
        returned !! "_id" = (λ v, VStr (@py_str strict_runtime v)) <$> stored !! "_id" ∧
        (∀ k v, k ≠ "_id" → returned !! k = Some v → stored !! k = Some v).
Proof.
  apply (@execute_normalises_ids strict_runtime (paged_collection (numbered_records 7))
           {[ "limit" := VInt 5; "skip" := VInt 5 ]} [] _
           [FindCall ∅ 5 5; CountCall ∅]).
  - rewrite execute_eq. reflexivity.
  - reflexivity.
Defined.

(** The second page of five of a store of seven records. *)
Lemma execute_pages_witness :
  ∃ out,
    @MongoDBSearchTool.execute strict_runtime (paged_collection (numbered_records 7))
      {[ "limit" := VInt 5; "skip" := VInt 5 ]} []
    = (Return out, [] ++ [FindCall ∅ 5 5; CountCall ∅]) ∧
    ToolOutput.success out = true ∧
    ToolOutput.metadata out !! "total_count" = Some (VInt (Z.of_nat 7)) ∧
    ToolOutput.metadata out !! "returned_count" = Some (VInt (Z.min 5 (Z.max 0 (Z.of_nat 7 - 5)))) ∧
    ToolOutput.metadata out !! "has_more" = Some (VBool (bool_decide (5 + 5 < Z.of_nat 7))).
Proof.
  apply (@execute_pages strict_runtime (numbered_records 7)
           {[ "limit" := VInt 5; "skip" := VInt 5 ]}
           {| MongoDBSearchInput.query := ∅; MongoDBSearchInput.limit := 5;
              MongoDBSearchInput.skip := 5; MongoDBSearchInput.fields := None |} []).
  reflexivity.
Defined.

(* ===================================================================== *)
(** ** Lookup of one document                                             *)
(* ===================================================================== *)

Section DocumentById.
Context `{rt : PyRuntime}.
Variable object_id : string → outcome value.
Variable find_one : dict → outcome (option dict).

(** X9.  [get_document_by_id] raises nothing.  It answers [None] when the
    text is not an identifier, when the store raises and when the store
    finds nothing; a document that is found comes back with its
    identifier turned into a string and its other fields as stored; and
    whatever document it answers has a string as identifier. *)
Theorem get_document_by_id_spec (doc_id : string) (log : list call) :
  ∃ answer,
    MongoDBClient.get_document_by_id object_id find_one doc_id log = (Return answer, log) ∧
    (∀ e, object_id doc_id = Raise e → answer = None) ∧
    (∀ oid, object_id doc_id = Return oid →
       (∀ e, find_one {[ "_id" := oid ]} = Raise e → answer = None) ∧
       (find_one {[ "_id" := oid ]} = Return None → answer = None) ∧
       (∀ doc v, find_one {[ "_id" := oid ]} = Return (Some doc) →
                 doc !! "_id" = Some v →
                 answer = Some (<["_id" := VStr (py_str v)]> doc))) ∧
    (∀ doc, answer = Some doc → id_is_string doc).
Proof.
  unfold MongoDBClient.get_document_by_id, MongoDBClient.get_document_by_id_try,
    try_except, bind, lift.
  destruct (object_id doc_id) as [oid|e] eqn:Hoid; simpl.
  2: { eexists. split; [reflexivity|]. split; [done|]. split; [done|]. done. }
  destruct (find_one {[ "_id" := oid ]}) as [[doc|]|e] eqn:Hfind; simpl.
  3: { eexists. split; [reflexivity|]. split; [done|].
       split; [|done]. intros ? [= <-]. by rewrite Hfind. }
  2: { eexists. split; [reflexivity|]. split; [done|].
       split; [|done]. intros ? [= <-]. by rewrite Hfind. }
  destruct (bool_decide (doc = ∅)) eqn:Hempty; simpl.
  - apply bool_decide_eq_true in Hempty as ->.
    eexists. split; [reflexivity|]. split; [done|]. split.
    + intros ? [= <-]. rewrite Hfind. split; [done|]. split; [done|].
      intros doc v [= <-]. by rewrite lookup_empty.
    + intros doc [= <-] v. by rewrite lookup_empty.
  - destruct (doc !! "_id") as [v|] eqn:Hid; simpl.
    + eexists. split; [reflexivity|]. split; [done|]. split.
      * intros ? [= <-]. rewrite Hfind. split; [done|]. split; [done|].
        intros doc' v' [= <-]. rewrite Hid. by intros [= <-].
      * intros doc' [= <-] v'. rewrite lookup_insert_eq. intros [= <-]. eauto.
    + eexists. split; [reflexivity|]. split; [done|]. split; [|done].
      intros ? [= <-]. rewrite Hfind. split; [done|]. split; [done|].
      intros doc' v' [= <-]. by rewrite Hid.
Qed.
End DocumentById.

(** The record of the example store, looked up by its identifier. *)
Lemma get_document_by_id_spec_witness :
  @MongoDBClient.get_document_by_id strict_runtime sample_object_id sample_find_one
    "65f0c0ffee" []
  = (Return (Some {[ "_id" := VStr "65f0c0ffee"; "a" := VInt 1 ]}), []).
Proof.
  destruct (@get_document_by_id_spec strict_runtime sample_object_id sample_find_one
              "65f0c0ffee" []) as (answer & -> & _ & Hfound & _).
  destruct (Hfound (VObjectId "65f0c0ffee") eq_refl) as (_ & _ & Hdoc).
  by rewrite (Hdoc {[ "_id" := VObjectId "65f0c0ffee"; "a" := VInt 1 ]}
                (VObjectId "65f0c0ffee") eq_refl eq_refl).
Defined.

(* ===================================================================== *)
(** ** Further properties of the registry                                 *)
(* ===================================================================== *)

Section RegistryMore.
Context `{rt : PyRuntime}.

Lemma keys_register (tools : ToolHandler.t) (tool : BaseTool.t) :
  ToolHandler.keys (ToolHandler.register_tool tool tools) =
  if decide (BaseTool.name tool ∈ ToolHandler.keys tools)
  then ToolHandler.keys tools
  else ToolHandler.keys tools ++ [BaseTool.name tool].
Proof.
  unfold ToolHandler.register_tool, ToolHandler.keys.
  induction tools as [|[k old] tools IH].
  { rewrite decide_False; [done|]. apply not_elem_of_nil. }
  destruct (decide (BaseTool.name tool ∈ fst <$> (k, old) :: tools)) as [Hin|Hout];
    cbn [ToolHandler.set_item];
    destruct (String.eqb_spec k (BaseTool.name tool)) as [->|Hne];
    rewrite ?fmap_cons; cbn [fst].
  - done.
  - rewrite IH, decide_True; [done|].
    rewrite fmap_cons in Hin.
    apply elem_of_cons in Hin as [Heq|?]; [simpl in Heq; congruence|done].
  - destruct Hout. apply list_elem_of_here.
  - rewrite IH, decide_False; [done|].
    intros ?. apply Hout. by apply list_elem_of_further.
Qed.

Lemma elem_of_register (tools : ToolHandler.t) (tool : BaseTool.t) (entry : string * BaseTool.t) :
  entry ∈ ToolHandler.register_tool tool tools →
  entry = (BaseTool.name tool, tool) ∨ entry ∈ tools.
Proof.
  unfold ToolHandler.register_tool.
  induction tools as [|[k old] tools IH]; simpl.
  { intros [->|[]%elem_of_nil]%elem_of_cons. by left. }
  destruct (String.eqb_spec k (BaseTool.name tool)) as [->|Hne].
  - intros [->|?]%elem_of_cons; [by left|]. right. by apply list_elem_of_further.
  - intros [->|Hin]%elem_of_cons; [right; apply list_elem_of_here|].
    destruct (IH Hin) as [->|?]; [by left|]. right. by apply list_elem_of_further.
Qed.

Lemma well_keyed_register (tools : ToolHandler.t) (tool : BaseTool.t) :
  well_keyed tools → well_keyed (ToolHandler.register_tool tool tools).
Proof.
  intros [Hnodup Hnames]. split.
  - rewrite keys_register. case_decide as Hin; [done|].
    apply NoDup_app. split; [done|]. split; [|apply NoDup_singleton].
    intros k Hk ->%list_elem_of_singleton. done.
  - apply Forall_forall. intros entry [->|Hin]%elem_of_register; [done|].
    by eapply Forall_forall in Hnames.
Qed.

Lemma well_keyed_register_all (registrations : list BaseTool.t) (tools : ToolHandler.t) :
  well_keyed tools → well_keyed (ToolHandler.register_all registrations tools).
Proof.
  unfold ToolHandler.register_all.
  revert tools. induction registrations as [|tool registrations IH]; intros tools H; [done|].
  simpl. apply IH. by apply well_keyed_register.
Qed.

Lemma get_tool_elem_of (tools : ToolHandler.t) tool_name tool :
  ToolHandler.get_tool tools tool_name = Some tool → (tool_name, tool) ∈ tools.
Proof.
  induction tools as [|[k old] tools IH]; simpl; [done|].
  destruct (String.eqb_spec k tool_name) as [->|Hne].
  - intros [= ->]. apply list_elem_of_here.
  - intros H. apply list_elem_of_further. by apply IH.
Qed.

(** X10.  Registration and lookup: after [register_tool] the tool is
    found under its name, every other name gives what it gave before,
    and of two registrations under one name the later one is found. *)
Theorem register_then_get (tools : ToolHandler.t) (tool : BaseTool.t) :
  ToolHandler.get_tool (ToolHandler.register_tool tool tools) (BaseTool.name tool)
  = Some tool ∧
  (∀ other, other ≠ BaseTool.name tool →
     ToolHandler.get_tool (ToolHandler.register_tool tool tools) other
     = ToolHandler.get_tool tools other) ∧
  (∀ later, BaseTool.name later = BaseTool.name tool →
     ToolHandler.get_tool
       (ToolHandler.register_tool later (ToolHandler.register_tool tool tools))
       (BaseTool.name tool)
     = Some later).
Proof.
  split; [|split].
  - by rewrite get_tool_register, String.eqb_refl.
  - intros other Hne. rewrite get_tool_register.
    by rewrite (proj2 (String.eqb_neq _ _)).
  - intros later Hname. by rewrite get_tool_register, Hname, String.eqb_refl.
Qed.

(** X11.  The names of the registry: registering under a name that is
    present leaves the list of names as it is (the name keeps its place),
    registering under a new name puts it at the end; so the number of
    tools grows by one at most. *)
Theorem register_tool_keys (tools : ToolHandler.t) (tool : BaseTool.t) :
  (BaseTool.name tool ∈ ToolHandler.keys tools →
   ToolHandler.keys (ToolHandler.register_tool tool tools) = ToolHandler.keys tools) ∧
  (BaseTool.name tool ∉ ToolHandler.keys tools →
   ToolHandler.keys (ToolHandler.register_tool tool tools)
   = ToolHandler.keys tools ++ [BaseTool.name tool]) ∧
  (length tools ≤ length (ToolHandler.register_tool tool tools) ≤ S (length tools))%nat.
Proof.
  split; [|split].
  - intros Hin. by rewrite keys_register, decide_True.
  - intros Hout. by rewrite keys_register, decide_False.
  - assert (Hlen : ∀ ts : ToolHandler.t, length (ToolHandler.keys ts) = length ts)
      by (intros; apply length_fmap).
    rewrite <-!Hlen, keys_register. case_decide; [lia|].
    rewrite length_app. simpl. lia.
Qed.

(** X12.  A registry built by registrations alone, from the empty one,
    holds every tool under the tool's own name and no name twice; its
    names are the names that were registered; a lookup gives a tool that
    was registered and that has the name asked for; and the list of
    descriptors has one descriptor for each name, in the order of the
    names. *)
Theorem registry_invariant (registrations : list BaseTool.t) :
  well_keyed (ToolHandler.register_all registrations []) ∧
  (∀ tool_name,
     tool_name ∈ ToolHandler.keys (ToolHandler.register_all registrations [])
     ↔ tool_name ∈ (BaseTool.name <$> registrations)) ∧
  (∀ tool_name tool,
     ToolHandler.get_tool (ToolHandler.register_all registrations []) tool_name = Some tool →
     BaseTool.name tool = tool_name ∧ tool ∈ registrations) ∧
  (λ info : dict, info !! "name")
    <$> ToolHandler.get_available_tools (ToolHandler.register_all registrations [])
  = (λ tool_name, Some (VStr tool_name))
    <$> ToolHandler.keys (ToolHandler.register_all registrations []).
Proof.
  assert (Hwk : well_keyed (ToolHandler.register_all registrations [])).
  { apply well_keyed_register_all. split; [apply NoDup_nil_2|apply Forall_nil_2]. }
  assert (Hentries : ∀ (tools : ToolHandler.t) entry,
            entry ∈ ToolHandler.register_all registrations tools →
            entry ∈ tools ∨ snd entry ∈ registrations).
  { unfold ToolHandler.register_all.
    induction registrations as [|tool regs IH]; intros tools entry; simpl; [by left|].
    intros [[->|?]%elem_of_register|?]%IH.
    - right. apply list_elem_of_here.
    - by left.
    - right. by apply list_elem_of_further.
    - apply well_keyed_register_all. split; [apply NoDup_nil_2|apply Forall_nil_2]. }
  assert (Hkeys : ∀ (tools : ToolHandler.t) tool_name,
            tool_name ∈ ToolHandler.keys (ToolHandler.register_all registrations tools)
            ↔ tool_name ∈ ToolHandler.keys tools ∨ tool_name ∈ (BaseTool.name <$> registrations)).
  { clear Hwk Hentries. unfold ToolHandler.register_all.
    induction registrations as [|tool regs IH]; intros tools tool_name; simpl.
    - rewrite elem_of_nil. tauto.
    - rewrite IH, keys_register, elem_of_cons.
      case_decide as Hin; [|rewrite elem_of_app, list_elem_of_singleton];
        (split; [|intros [?|[->|?]]]); try tauto. }
  split; [done|]. split; [|split].
  - intros tool_name. rewrite Hkeys. unfold ToolHandler.keys at 1. simpl.
    rewrite elem_of_nil. tauto.
  - intros tool_name tool Hget%get_tool_elem_of.
    destruct Hwk as [_ Hnames].
    eapply Forall_forall in Hnames as Hname; [|done]. simpl in Hname.
    split; [done|].
    by destruct (Hentries [] _ Hget) as [[]%elem_of_nil|?].
  - destruct Hwk as [_ Hnames].
    unfold ToolHandler.get_available_tools, ToolHandler.keys.
    rewrite <-!list_fmap_compose. apply Forall_fmap_ext_1.
    eapply Forall_impl; [exact Hnames|]. intros [k tool] Hk. simpl in *.
    by subst k.
Qed.

(** Dispatch to a registered tool, case by case. *)
Lemma handler_execute_tool_registered (tools : ToolHandler.t) tool_name tool inputs log :
  ToolHandler.get_tool tools tool_name = Some tool →
  ToolHandler.execute_tool tools tool_name inputs log =
  match BaseTool.execute tool inputs log with
  | (Return result, log') => (Return result, log')
  | (Raise e, log') =>
      (Return {| ToolOutput.success := false;
                 ToolOutput.data := VNone;
                 ToolOutput.error := Some ("Tool execution error: " +:+ exn_str e);
                 ToolOutput.metadata := {[ "tool_name" := VStr tool_name ]} |}, log')
  end.
Proof.
  intros Hget.
  unfold ToolHandler.execute_tool, ToolHandler.execute_tool_try, try_except, bind.
  rewrite Hget. by destruct (BaseTool.execute tool inputs log) as [[result|e] log'].
Qed.

(** X13.  Dispatch to a registered name gives what the tool's [execute]
    gives, with the calls it made; when the tool raises, dispatch returns
    the failure result [{success: false, error: Tool execution error:
    <cause>, metadata: {tool_name: <name>}}].  In the registry as built
    at start-up, [mongodb_search] is the search tool. *)
Theorem dispatch_registered_tool (tools : ToolHandler.t) tool_name inputs log :
  tool_name ∈ ToolHandler.keys tools →
  (∃ tool,
     ToolHandler.get_tool tools tool_name = Some tool ∧
     (∀ result log', BaseTool.execute tool inputs log = (Return result, log') →
        ToolHandler.execute_tool tools tool_name inputs log = (Return result, log')) ∧
     (∀ e log', BaseTool.execute tool inputs log = (Raise e, log') →
        ∃ out, ToolHandler.execute_tool tools tool_name inputs log = (Return out, log') ∧
               ToolOutput.success out = false ∧
               ToolOutput.error out = Some ("Tool execution error: " +:+ exn_str e) ∧
               ToolOutput.metadata out = {[ "tool_name" := VStr tool_name ]})) ∧
  (∀ collection,
     ToolHandler.execute_tool (ToolHandler.init collection) "mongodb_search" inputs log
     = MongoDBSearchTool.execute collection inputs log).
Proof.
  intros [tool Hget]%get_tool_Some. split.
  - exists tool. split; [done|]. split.
    + intros result log' Hexec.
      by rewrite (handler_execute_tool_registered _ _ _ _ _ Hget), Hexec.
    + intros e log' Hexec. eexists.
      rewrite (handler_execute_tool_registered _ _ _ _ _ Hget), Hexec. done.
  - intros collection.
    rewrite (handler_execute_tool_registered _ _ (MongoDBSearchTool.new collection))
      by reflexivity.
    simpl.
    destruct (try_except_Exception_total
                (MongoDBSearchTool.execute_try collection inputs)
                (search_failed inputs) log) as (out & log' & Hexec).
    change (MongoDBSearchTool.execute collection inputs log = (Return out, log')) in Hexec.
    by rewrite Hexec.
Qed.
End RegistryMore.

(** A registered tool that raises. *)
Lemma dispatch_registered_tool_witness :
  ∃ out,
    @ToolHandler.execute_tool strict_runtime
      (ToolHandler.register_tool (raising_tool "broken" (OtherException "RuntimeError" "boom")) [])
      "broken" ∅ [] = (Return out, []) ∧
    ToolOutput.success out = false ∧
    ToolOutput.error out = Some "Tool execution error: boom" ∧
    ToolOutput.metadata out = {[ "tool_name" := VStr "broken" ]}.
Proof.
  destruct (@dispatch_registered_tool strict_runtime
              (ToolHandler.register_tool
                 (raising_tool "broken" (OtherException "RuntimeError" "boom")) [])
              "broken" ∅ []) as [(tool & Hget & _ & Hraise) _].
  { apply list_elem_of_here. }
  injection Hget as <-.
  apply (Hraise (OtherException "RuntimeError" "boom") []). reflexivity.
Defined.

(* ===================================================================== *)
(** ** Further properties of the HTTP facade                              *)
(* ===================================================================== *)

Section FacadeMore.
Context `{rt : PyRuntime}.

(** X14.  [GET /tools/<name>] answers a registered name with status 200
    and the descriptor of the tool found under it, and any other name
    with status 404 and the not-found detail; it makes no call and never
    answers 500. *)
Theorem get_tools_name_status (tools : ToolHandler.t) (tool_name : string) (log : list call) :
  (∀ tool, ToolHandler.get_tool tools tool_name = Some tool →
     Server.get_tools_name tools tool_name log
     = ({| HTTPResponse.status_code := 200;
           HTTPResponse.content := HTTPResponse.Json (BaseTool.get_tool_info tool) |}, log) ∧
     BaseTool.get_tool_info tool !! "name" = Some (VStr (BaseTool.name tool))) ∧
  (tool_name ∉ ToolHandler.keys tools →
     Server.get_tools_name tools tool_name log
     = ({| HTTPResponse.status_code := 404;
           HTTPResponse.content :=
             HTTPResponse.Detail ("Tool '" +:+ tool_name +:+ "' not found") |}, log)) ∧
  (HTTPResponse.status_code (Server.get_tools_name tools tool_name log).1 = 200
   ↔ tool_name ∈ ToolHandler.keys tools).
Proof.
  unfold Server.get_tools_name, HTTPResponse.route, Server.get_tool_info, try_except.
  split; [|split].
  - intros tool Hget. rewrite Hget. split; [done|].
    unfold BaseTool.get_tool_info. apply lookup_insert_eq.
  - intros Hout%get_tool_None. by rewrite Hout.
  - rewrite <-get_tool_Some.
    destruct (ToolHandler.get_tool tools tool_name) as [tool|]; simpl.
    + split; [eauto|done].
    + split; [done|by intros []].
Qed.

(** X15.  [GET /tools] and [GET /health] answer with status 200 and
    agree on the number of tools: the [count] of the one and the
    [tools_count] of the other are the number of registered names, which
    is also the number of descriptors listed. *)
Theorem tools_and_health_counts (tools : ToolHandler.t) (log : list call) :
  ∃ listing health,
    Server.get_tools tools log
    = ({| HTTPResponse.status_code := 200;
          HTTPResponse.content := HTTPResponse.Json (ToolListResponse.to_json listing) |}, log) ∧
    Server.get_health tools log
    = ({| HTTPResponse.status_code := 200;
          HTTPResponse.content := HTTPResponse.Json health |}, log) ∧
    ToolListResponse.tools listing = ToolHandler.get_available_tools tools ∧
    length (ToolListResponse.tools listing) = length (ToolHandler.keys tools) ∧
    ToolListResponse.count listing = Z.of_nat (length (ToolHandler.keys tools)) ∧
    health !! "tools_count" = Some (VInt (ToolListResponse.count listing)) ∧
    health !! "status" = Some (VStr "healthy").
Proof.
  eexists _, _. split; [reflexivity|]. split; [reflexivity|]. simpl.
  unfold ToolHandler.get_available_tools, ToolHandler.keys.
  rewrite !length_fmap. split; [done|]. split; [done|]. split; [done|].
  split; [|done].
  rewrite lookup_insert_ne by done. rewrite lookup_insert_ne by done.
  by rewrite lookup_singleton_eq.
Qed.

(** X16.  A search through the server: [POST /execute] for
    [mongodb_search], in the registry as built at start-up, answers with
    status 200 after the store calls of the tool's [execute] on the
    inputs of the request.  A search that fails is passed on: the
    response has its success flag, data and error, and the request
    metadata overlaid by the metadata of the result.  A search that
    succeeds is not: its error is [None], the response for it cannot be
    built, and the caller gets [success = false] with the error of the
    [except] block and the metadata [{tool_name: mongodb_search}]. *)
Theorem post_execute_search (collection : Collection.t) (inputs metadata : dict)
    (log : list call) :
  ∃ out log' response,
    MongoDBSearchTool.execute collection inputs log = (Return out, log') ∧
    Server.post_execute (ToolHandler.init collection)
      {| MCPRequest.tool_name := "mongodb_search";
         MCPRequest.inputs := inputs;
         MCPRequest.metadata := metadata |} log
    = ({| HTTPResponse.status_code := 200;
          HTTPResponse.content := HTTPResponse.Model response |}, log') ∧
    (ToolOutput.success out = false →
     ∃ msg,
       ToolOutput.error out = Some msg ∧
       response = {| MCPResponse.success := false;
                     MCPResponse.data := ToolOutput.data out;
                     MCPResponse.error := Some msg;
                     MCPResponse.metadata := ToolOutput.metadata out ∪ metadata;
                     MCPResponse.mcp_version := MCP_VERSION |}) ∧
    (ToolOutput.success out = true →
     response = {| MCPResponse.success := false;
                   MCPResponse.data := VNone;
                   MCPResponse.error :=
                     Some ("Tool execution failed: " +:+ exn_str error_not_a_string);
                   MCPResponse.metadata := {[ "tool_name" := VStr "mongodb_search" ]};
                   MCPResponse.mcp_version := MCP_VERSION |}).
Proof.
  destruct (try_except_Exception_total
              (MongoDBSearchTool.execute_try collection inputs)
              (search_failed inputs) log) as (out & log' & Hexec).
  change (MongoDBSearchTool.execute collection inputs log = (Return out, log')) in Hexec.
  assert (Hshape : (ToolOutput.success out = true ∧ ToolOutput.error out = None) ∨
                   (ToolOutput.success out = false ∧ ∃ msg, ToolOutput.error out = Some msg)).
  { rewrite execute_eq in Hexec.
    destruct (MongoDBSearchInput.init inputs) as [search_input|e];
      [|injection Hexec as <- _; right; split; [done|]; by eexists].
    destruct (find_answer collection search_input) as [cursor|e];
      [|injection Hexec as <- _; right; split; [done|]; by eexists].
    simpl in Hexec.
    destruct (count_answer collection search_input) as [total_count|e];
      [injection Hexec as <- _; by left|].
    destruct (is_PyMongoError e); injection Hexec as <- _;
      [by left|right; split; [done|]; by eexists]. }
  assert (Hpost : Server.post_execute (ToolHandler.init collection)
            {| MCPRequest.tool_name := "mongodb_search";
               MCPRequest.inputs := inputs;
               MCPRequest.metadata := metadata |} log
          = ({| HTTPResponse.status_code := 200;
                HTTPResponse.content :=
                  HTTPResponse.Model
                    match ToolOutput.error out with
                    | Some msg =>
                        response_merged
                          {| MCPRequest.tool_name := "mongodb_search";
                             MCPRequest.inputs := inputs;
                             MCPRequest.metadata := metadata |} out msg
                    | None =>
                        response_failed
                          {| MCPRequest.tool_name := "mongodb_search";
                             MCPRequest.inputs := inputs;
                             MCPRequest.metadata := metadata |} error_not_a_string
                    end |}, log')).
  { unfold Server.post_execute, HTTPResponse.route, Server.execute_tool.
    rewrite server_execute_tool_eq. simpl.
    rewrite (handler_execute_tool_registered _ _ (MongoDBSearchTool.new collection))
      by reflexivity.
    simpl. rewrite Hexec. by destruct (ToolOutput.error out). }
  eexists out, log', _. split; [done|]. split; [exact Hpost|].
  destruct Hshape as [[Hsuccess Herror]|[Hsuccess [msg Herror]]];
    rewrite Hsuccess, Herror.
  - split; [done|]. by intros _.
  - split; [|done]. intros _. exists msg. split; [done|].
    unfold response_merged. simpl. by rewrite Hsuccess.
Qed.
End FacadeMore.

(* ===================================================================== *)
(** ** Further properties of the client                                   *)
(* ===================================================================== *)

Section ClientMore.
Context `{rt : PyRuntime}.
Variable server_url : string.
Variable session : Session.t.

Lemma make_request_get endpoint data log :
  MCPClient._make_request server_url session "GET" endpoint data log
  = (Session.get session (server_url +:+ endpoint),
     log ++ [HttpGet (server_url +:+ endpoint)]).
Proof.
  unfold MCPClient._make_request, try_except.
  change (str_upper "GET") with "GET". simpl. unfold external.
  destruct (Session.get session _) as [reply|e]; [done|].
  by destruct (is_RequestException e).
Qed.

(** X17.  [_make_request] goes by the method in upper case: [GET] makes
    one GET and [POST] one POST to the server address followed by the
    endpoint, and what the session answers or raises is passed on as it
    is; any other method raises a [ValueError] that names it, and no
    request is made. *)
Theorem make_request_method (method endpoint : string) (data : value) (log : list call) :
  (str_upper method = "GET" →
   MCPClient._make_request server_url session method endpoint data log
   = (Session.get session (server_url +:+ endpoint),
      log ++ [HttpGet (server_url +:+ endpoint)])) ∧
  (str_upper method = "POST" →
   MCPClient._make_request server_url session method endpoint data log
   = (Session.post session (server_url +:+ endpoint) data,
      log ++ [HttpPost (server_url +:+ endpoint) data])) ∧
  (str_upper method ≠ "GET" → str_upper method ≠ "POST" →
   MCPClient._make_request server_url session method endpoint data log
   = (Raise (ValueError ("Unsupported HTTP method: " +:+ method)), log)).
Proof.
  unfold MCPClient._make_request, try_except, external, raise.
  split; [|split].
  - intros ->. simpl.
    destruct (Session.get session _) as [reply|e]; [done|].
    by destruct (is_RequestException e).
  - intros ->. simpl.
    destruct (Session.post session _ data) as [reply|e]; [done|].
    by destruct (is_RequestException e).
  - intros Hget%String.eqb_neq Hpost%String.eqb_neq. by rewrite Hget, Hpost.
Qed.

(** X18.  The client's [health_check] raises nothing and makes one GET to
    [/health]: it returns the reply when the reply is a JSON object, and
    otherwise (the request failed, or the reply is no object) the result
    [{status: unhealthy, error: <cause>}]. *)
Theorem client_health_check_spec (log : list call) :
  ∃ result,
    MCPClient.health_check server_url session log
    = (Return (VDict result), log ++ [HttpGet (server_url +:+ "/health")]) ∧
    (∀ reply, Session.get session (server_url +:+ "/health") = Return (VDict reply) →
              result = reply) ∧
    ((∀ reply, Session.get session (server_url +:+ "/health") ≠ Return (VDict reply)) →
     result !! "status" = Some (VStr "unhealthy") ∧
     ∃ cause, result !! "error" = Some (VStr cause)) ∧
    (∀ e, Session.get session (server_url +:+ "/health") = Raise e →
          result = {[ "status" := VStr "unhealthy"; "error" := VStr (exn_str e) ]}).
Proof.
  unfold MCPClient.health_check, try_except, bind.
  rewrite make_request_get.
  destruct (Session.get session _) as [reply|e] eqn:Hget; simpl.
  - destruct reply as [| | | | | | |d]; simpl;
      try (eexists; split; [reflexivity|];
           split; [by intros ? [=]|]; split; [|by intros ? [=]];
           intros _; split; [done|]; by eexists).
    exists d. split; [done|]. split; [by intros ? [= <-]|].
    split; [|by intros ? [=]]. intros Hno. by destruct (Hno d).
  - eexists. split; [reflexivity|]. split; [by intros ? [=]|].
    split; [|by intros ? [= <-]]. intros _. split; [done|]. by eexists.
Qed.

(** X19.  [list_available_tools] raises nothing and makes one GET to
    [/tools]: it returns the [tools] entry of the reply when the reply is
    a JSON object and the entry has a length, the empty list when the
    object has no such entry, and the empty list whenever the request
    fails, the reply is no object or the entry has no length. *)
Theorem list_available_tools_spec (log : list call) :
  ∃ tools,
    MCPClient.list_available_tools server_url session log
    = (Return tools, log ++ [HttpGet (server_url +:+ "/tools")]) ∧
    has_len tools = true ∧
    (∀ reply entry,
       Session.get session (server_url +:+ "/tools") = Return (VDict reply) →
       reply !! "tools" = Some entry →
       tools = if has_len entry then entry else VList []) ∧
    (∀ reply,
       Session.get session (server_url +:+ "/tools") = Return (VDict reply) →
       reply !! "tools" = None → tools = VList []) ∧
    ((∀ reply, Session.get session (server_url +:+ "/tools") ≠ Return (VDict reply)) →
     tools = VList []).
Proof.
  unfold MCPClient.list_available_tools, try_except, bind.
  rewrite make_request_get.
  destruct (Session.get session _) as [reply|e] eqn:Hget; simpl.
  - destruct reply as [| | | | | | |d]; simpl;
      try (eexists; split; [reflexivity|]; split; [done|];
           split; [by intros ?? [=]|]; split; [by intros ? [=]|]; done).
    unfold dict_get.
    destruct (d !! "tools") as [entry|] eqn:Hentry; simpl.
    + destruct entry; simpl;
        (eexists; split; [reflexivity|]; split; [done|];
         split; [by intros ?? [= <-]; rewrite Hentry; intros [= <-]|];
         split; [by intros ? [= <-]; rewrite Hentry|];
         intros Hno; by destruct (Hno d)).
    + eexists. split; [reflexivity|]. split; [done|].
      split; [by intros ?? [= <-]; rewrite Hentry|].
      split; [done|]. intros Hno. by destruct (Hno d).
  - eexists. split; [reflexivity|]. split; [done|].
    split; [by intros ?? [=]|]. split; [by intros ? [=]|]. done.
Qed.

(** X20.  [execute_custom_tool] raises nothing and makes one POST to
    [/execute] with the body [{tool_name, inputs, metadata}], the
    metadata being [{}] when none is given: it returns the reply as it
    is when the reply is a JSON object, and otherwise the failure result
    [{success: false, error: <cause>, data: None,
    metadata: {tool_name: <name>}}]. *)
Theorem execute_custom_tool_spec (tool_name : string) (inputs : dict)
    (metadata : option dict) (log : list call) :
  ∃ result,
    MCPClient.execute_custom_tool server_url session tool_name inputs metadata log
    = (Return (VDict result),
       log ++ [HttpPost (server_url +:+ "/execute")
                 (VDict {[ "tool_name" := VStr tool_name;
                           "inputs" := VDict inputs;
                           "metadata" := VDict (default ∅ metadata) ]})]) ∧
    (∀ reply,
       Session.post session (server_url +:+ "/execute")
         (VDict (MCPClient.custom_request tool_name inputs metadata)) = Return (VDict reply) →
       result = reply) ∧
    ((∀ reply,
        Session.post session (server_url +:+ "/execute")
          (VDict (MCPClient.custom_request tool_name inputs metadata)) ≠ Return (VDict reply)) →
     result !! "success" = Some (VBool false) ∧
     result !! "data" = Some VNone ∧
     result !! "metadata" = Some (VDict {[ "tool_name" := VStr tool_name ]}) ∧
     ∃ cause, result !! "error" = Some (VStr cause)).
Proof.
  unfold MCPClient.execute_custom_tool, try_except, bind.
  rewrite make_request_post.
  fold (MCPClient.custom_request tool_name inputs metadata).
  destruct (Session.post session _ _) as [reply|e] eqn:Hpost; simpl.
  - destruct reply as [| | | | | | |d]; simpl;
      try (eexists; split; [reflexivity|]; split; [by intros ? [=]|];
           intros _; split; [done|]; split; [done|]; split; [done|]; by eexists).
    exists d. split.
    { by destruct (truthy (dict_get d "success" VNone)). }
    split; [by intros ? [= <-]|]. intros Hno. by destruct (Hno d).
  - eexists. split; [reflexivity|]. split; [by intros ? [=]|].
    intros _. split; [done|]. split; [done|]. split; [done|]. by eexists.
Qed.

(** X21.  The client's [search_documents]: an empty list of fields is
    left out of the request like no list, and no query is sent as [{}].
    A reply that is a JSON object is returned as it is when its
    [success] is falsy, and when its [success] is truthy, its [data] has
    a length and its [metadata] is an object or absent.  A reply with a
    truthy [success] whose [data] has no length (a null, a number) is
    not returned: the caller gets the failure result with [success:
    false], [data: []] and empty metadata, as for a request that fails. *)
Theorem client_search_documents_spec (query : option dict) (limit skip : Z)
    (fields : option (list string)) (log : list call) :
  MCPClient.search_request query limit skip (Some [])
  = MCPClient.search_request query limit skip None ∧
  MCPClient.search_request None limit skip fields
  = MCPClient.search_request (Some ∅) limit skip fields ∧
  ∃ result,
    MCPClient.search_documents server_url session query limit skip fields log
    = (Return (VDict result),
       log ++ [HttpPost (server_url +:+ "/execute")
                 (VDict (MCPClient.search_request query limit skip fields))]) ∧
    (∀ reply,
       Session.post session (server_url +:+ "/execute")
         (VDict (MCPClient.search_request query limit skip fields)) = Return (VDict reply) →
       (truthy (dict_get reply "success" VNone) = false → result = reply) ∧
       (truthy (dict_get reply "success" VNone) = true →
        has_len (dict_get reply "data" (VList [])) = true →
        (∃ metadata, dict_get reply "metadata" (VDict ∅) = VDict metadata) →
        result = reply) ∧
       (truthy (dict_get reply "success" VNone) = true →
        has_len (dict_get reply "data" (VList [])) = false →
        result !! "success" = Some (VBool false) ∧
        result !! "data" = Some (VList []) ∧
        result !! "metadata" = Some (VDict ∅))) ∧
    (∀ e,
       Session.post session (server_url +:+ "/execute")
         (VDict (MCPClient.search_request query limit skip fields)) = Raise e →
       result = {[ "success" := VBool false;
                   "error" := VStr (exn_str e);
                   "data" := VList [];
                   "metadata" := VDict ∅ ]}).
Proof.
  split; [done|]. split; [done|].
  unfold MCPClient.search_documents, MCPClient.search_documents_try,
    MCPClient.search_documents_except, try_except, bind.
  rewrite make_request_post.
  destruct (Session.post session _ _) as [reply|e] eqn:Hpost; simpl.
  2: { eexists. split; [reflexivity|]. split; [by intros ? [=]|by intros ? [= <-]]. }
  destruct reply as [| | | | | | |d]; simpl;
    try (eexists; split; [reflexivity|]; split; [by intros ? [=]|by intros ? [=]]).
  destruct (truthy (dict_get d "success" VNone)) eqn:Hok; simpl.
  2: { exists d. split; [done|]. split; [|by intros ? [=]].
       intros ? [= <-]. rewrite Hok. by split. }
  destruct (dict_get d "data" (VList [])) eqn:Hdata; simpl;
    try (eexists; split; [reflexivity|]; split; [|by intros ? [=]];
         intros ? [= <-]; rewrite Hok, Hdata; split; [done|]; by split).
  all: destruct (dict_get d "metadata" (VDict ∅)) eqn:Hmeta; simpl;
    try (exists d; split; [done|]; split; [|by intros ? [=]];
         intros ? [= <-]; rewrite Hok, Hdata; split; [done|]; by split).
  all: eexists; (split; [reflexivity|]); (split; [|by intros ? [=]]);
    intros ? [= <-]; rewrite Hok, Hdata, Hmeta; (split; [done|]);
    (split; [|done]); by intros _ _ [? [=]].
Qed.

(** [process_prompt], case by case on the metadata of the search result. *)
Lemma process_prompt_cases (prompt : string) (found : dict) log log' :
  MCPClient.search_documents server_url session
    (Some (MCPClient.prompt_query (search_terms_of prompt))) 20 0 None log
  = (Return (VDict found), log') →
  MCPClient.process_prompt server_url session prompt log
  = (Return (VDict
       match found !! "metadata" with
       | Some (VDict metadata) =>
           if decide (metadata = ∅) then found
           else with_prompt_metadata prompt found metadata
       | Some v =>
           if truthy v
           then prompt_failed prompt (TypeError "object does not support item assignment")
           else found
       | None => found
       end), log').
Proof.
  intros Hsearch.
  assert (Hnodict : ∀ v, found !! "metadata" = Some v → (∀ metadata, v ≠ VDict metadata) →
            MCPClient.process_prompt server_url session prompt log
            = (Return (VDict
                 (if truthy v
                  then prompt_failed prompt (TypeError "object does not support item assignment")
                  else found)), log')).
  { intros v Hm Hv. destruct (truthy v) eqn:Htruthy.
    - by apply (process_prompt_bad_metadata _ _ prompt found v log log').
    - unfold MCPClient.process_prompt, MCPClient.process_prompt_try, try_except.
      fold (search_terms_of prompt).
      rewrite (bind_Return _ _ _ _ _ Hsearch).
      rewrite (bind_Return _ _ _ _ _ (py_get_dict _ _ _ _)).
      assert (Hget : dict_get found "metadata" VNone = v)
        by (unfold dict_get; by rewrite Hm).
      by rewrite Hget, Htruthy. }
  destruct (found !! "metadata") as [v|] eqn:Hm.
  - destruct v as [| | | | | | |metadata]; try (by apply Hnodict).
    unfold MCPClient.process_prompt, MCPClient.process_prompt_try, try_except.
    fold (search_terms_of prompt).
    rewrite (bind_Return _ _ _ _ _ Hsearch).
    rewrite (bind_Return _ _ _ _ _ (py_get_dict _ _ _ _)).
    assert (Hget : dict_get found "metadata" VNone = VDict metadata)
      by (unfold dict_get; by rewrite Hm).
    rewrite Hget. simpl. case_decide as Hempty.
    + by rewrite bool_decide_eq_true_2.
    + rewrite bool_decide_eq_false_2 by done. simpl.
      rewrite (bind_Return _ _ _ _ _ (set_metadata_dict _ _ _ _ _ Hm)).
      rewrite (bind_Return _ _ _ _ _
                 (set_metadata_dict _ _ "query_type" (VStr "text_search") _
                    (lookup_insert_eq _ _ _))).
      unfold ret, with_prompt_metadata. by rewrite insert_insert_eq.
  - unfold MCPClient.process_prompt, MCPClient.process_prompt_try, try_except.
    fold (search_terms_of prompt).
    rewrite (bind_Return _ _ _ _ _ Hsearch).
    rewrite (bind_Return _ _ _ _ _ (py_get_dict _ _ _ _)).
    unfold dict_get. by rewrite Hm.
Qed.

(** X22.  [process_prompt] raises nothing, makes one POST and returns a
    JSON object; whenever the metadata of that object is a non-empty
    object, it holds [original_prompt] with the prompt as given. *)
Theorem process_prompt_keeps_prompt (prompt : string) (log : list call) :
  ∃ result,
    MCPClient.process_prompt server_url session prompt log
    = (Return (VDict result),
       log ++ [HttpPost (server_url +:+ "/execute") (VDict (prompt_request prompt))]) ∧
    (∀ metadata,
       result !! "metadata" = Some (VDict metadata) → metadata ≠ ∅ →
       metadata !! "original_prompt" = Some (VStr prompt)).
Proof.
  destruct (client_search_documents_total server_url session
              (Some (MCPClient.prompt_query (search_terms_of prompt))) 20 0 None log)
    as [found Hsearch].
  eexists. split; [by apply process_prompt_cases|].
  intros metadata.
  destruct (found !! "metadata") as [v|] eqn:Hm.
  - destruct v as [| | | | | | |m]; simpl;
      try (match goal with |- context [if ?b then _ else _] => destruct b end);
      try (rewrite Hm; by intros [=]);
      try (unfold prompt_failed; rewrite lookup_insert_ne by done;
           rewrite lookup_insert_ne by done; rewrite lookup_insert_ne by done;
           rewrite lookup_singleton_eq; intros [= <-] _; apply lookup_singleton_eq).
    + rewrite Hm. intros [= <-]. congruence.
    + unfold with_prompt_metadata. rewrite lookup_insert_eq. intros [= <-] _.
      rewrite lookup_insert_ne by done. apply lookup_insert_eq.
  - rewrite Hm. by intros [=].
Qed.
End ClientMore.

(** The method in lower case. *)
Lemma make_request_method_witness :
  @MCPClient._make_request strict_runtime "http://localhost:8000"
    (replying_session (VDict healthy_reply)) "get" "/health" VNone []
  = (Return (VDict healthy_reply), [HttpGet "http://localhost:8000/health"]).
Proof.
  apply (@make_request_method strict_runtime "http://localhost:8000"
           (replying_session (VDict healthy_reply)) "get" "/health" VNone []).
  reflexivity.
Defined.

(* ===================================================================== *)
(** ** Waiting for the server                                             *)
(* ===================================================================== *)

Section WaitForServer.
Context `{rt : PyRuntime}.
Variable server_url : string.
Variable sessions : nat → Session.t.

Lemma client_health_check_eq (session : Session.t) log :
  MCPClient.health_check server_url session log
  = (Return (VDict
       match Session.get session (server_url +:+ "/health") with
       | Return (VDict reply) => reply
       | Return _ =>
           {[ "status" := VStr "unhealthy";
              "error" := VStr "object has no attribute 'get'" ]}
       | Raise e => {[ "status" := VStr "unhealthy"; "error" := VStr (exn_str e) ]}
       end), log ++ [HttpGet (server_url +:+ "/health")]).
Proof.
  unfold MCPClient.health_check, try_except, bind.
  rewrite make_request_get.
  destruct (Session.get session _) as [reply|e]; [|done].
  by destruct reply.
Qed.

Lemma attempt_ready_eq (attempt : nat) log :
  Main.attempt_ready server_url sessions attempt log
  = (Return (server_ready server_url (sessions attempt)),
     log ++ [HttpGet (server_url +:+ "/health")]).
Proof.
  unfold Main.attempt_ready, try_except.
  rewrite (bind_Return _ _ _ _ _ (client_health_check_eq _ _)).
  rewrite (bind_Return _ _ _ _ _ (py_get_dict _ _ _ _)).
  unfold ret, server_ready.
  destruct (Session.get (sessions attempt) _) as [reply|e]; [|done].
  by destruct reply.
Qed.

Lemma wait_from_spec (attempt remaining : nat) log :
  ∃ ready polls,
    Main.wait_from server_url sessions attempt remaining log
    = (Return ready, log ++ replicate polls (HttpGet (server_url +:+ "/health"))) ∧
    (polls ≤ remaining)%nat ∧
    (ready = true →
     (1 ≤ polls)%nat ∧
     server_ready server_url (sessions (attempt + polls - 1)%nat) = true ∧
     ∀ j, (attempt ≤ j < attempt + polls - 1)%nat →
          server_ready server_url (sessions j) = false) ∧
    (ready = false →
     polls = remaining ∧
     ∀ j, (attempt ≤ j < attempt + remaining)%nat →
          server_ready server_url (sessions j) = false).
Proof.
  revert attempt log. induction remaining as [|remaining IH]; intros attempt log.
  { exists false, 0%nat. simpl. rewrite app_nil_r.
    split; [done|]. split; [done|]. split; [done|]. intros _. split; [done|]. lia. }
  cbn [Main.wait_from].
  rewrite (bind_Return _ _ _ _ _ (attempt_ready_eq attempt log)).
  destruct (server_ready server_url (sessions attempt)) eqn:Hready.
  - exists true, 1%nat. split; [done|]. split; [lia|]. split; [|done].
    intros _. split; [done|]. split; [|lia].
    by replace (attempt + 1 - 1)%nat with attempt by lia.
  - destruct (IH (S attempt) (log ++ [HttpGet (server_url +:+ "/health")]))
      as (ready & polls & Hwait & Hle & Htrue & Hfalse).
    exists ready, (S polls). split.
    { rewrite Hwait. by rewrite <-(assoc_L (++)). }
    split; [lia|]. split.
    + intros Hr. destruct (Htrue Hr) as (Hpos & Hlast & Hbefore).
      split; [lia|]. split.
      * by replace (attempt + S polls - 1)%nat with (S attempt + polls - 1)%nat by lia.
      * intros j Hj. destruct (decide (j = attempt)) as [->|Hne]; [done|].
        apply Hbefore. lia.
    + intros Hr. destruct (Hfalse Hr) as (-> & Hnone). split; [done|].
      intros j Hj. destruct (decide (j = attempt)) as [->|Hne]; [done|].
      apply Hnone. lia.
Qed.

(** X23.  [wait_for_server] raises nothing and polls [/health] at most 30
    times.  It returns [True] at the first attempt at which the server
    answers with the status [healthy], having made no poll after it, and
    [False] after 30 polls when no attempt is answered so. *)
Theorem wait_for_server_spec (log : list call) :
  ∃ ready polls,
    Main.wait_for_server server_url sessions log
    = (Return ready, log ++ replicate polls (HttpGet (server_url +:+ "/health"))) ∧
    (polls ≤ 30)%nat ∧
    (ready = true →
     (1 ≤ polls)%nat ∧
     server_ready server_url (sessions (polls - 1)%nat) = true ∧
     ∀ j, (j < polls - 1)%nat → server_ready server_url (sessions j) = false) ∧
    (ready = false →
     polls = 30%nat ∧
     ∀ j, (j < 30)%nat → server_ready server_url (sessions j) = false).
Proof.
  destruct (wait_from_spec 0 Main.max_attempts log)
    as (ready & polls & Hwait & Hle & Htrue & Hfalse).
  exists ready, polls. split; [done|]. split; [done|]. split.
  - intros Hr. destruct (Htrue Hr) as (Hpos & Hlast & Hbefore).
    split; [done|]. split; [done|]. intros j Hj. apply Hbefore. lia.
  - intros Hr. destruct (Hfalse Hr) as (-> & Hnone). split; [done|].
    intros j Hj. apply Hnone. unfold Main.max_attempts. lia.
Qed.
End WaitForServer.

(** A server that answers from the fourth attempt on: four polls. *)
Lemma wait_for_server_spec_witness :
  ∃ polls,
    @Main.wait_for_server strict_runtime "http://localhost:8000" (late_server 3) []
    = (Return true, [] ++ replicate polls (HttpGet ("http://localhost:8000" +:+ "/health"))) ∧
    polls = 4%nat.
Proof.
  assert (Hserver : ∀ j, @server_ready "http://localhost:8000" (late_server 3 j)
                         = negb (j <? 3)%nat).
  { intros j. unfold late_server. by destruct (j <? 3)%nat. }
  destruct (@wait_for_server_spec strict_runtime "http://localhost:8000" (late_server 3) [])
    as (ready & polls & Hwait & _ & Htrue & Hfalse).
  destruct ready.
  - destruct (Htrue eq_refl) as (Hpos & Hlast & Hbefore).
    exists polls. split; [exact Hwait|].
    rewrite Hserver in Hlast. apply negb_true_iff, Nat.ltb_ge in Hlast.
    destruct (decide (polls = 4%nat)) as [|Hne]; [done|].
    specialize (Hbefore 3%nat ltac:(lia)). by rewrite Hserver in Hbefore.
  - destruct (Hfalse eq_refl) as (_ & Hnone).
    specialize (Hnone 3%nat ltac:(lia)). by rewrite Hserver in Hnone.
Defined.

(* ===================================================================== *)
(** ** The further properties on examples                                 *)
(* ===================================================================== *)

(** Two registrations under the name [echo]: the later one is found. *)
Lemma register_then_get_witness :
  ToolHandler.get_tool
    (ToolHandler.register_tool (raising_tool "echo" (ValueError "no"))
       (ToolHandler.register_tool (constant_tool "echo" ∅) []))
    "echo"
  = Some (raising_tool "echo" (ValueError "no")).
Proof.
  apply (proj2 (proj2 (register_then_get [] (constant_tool "echo" ∅)))
           (raising_tool "echo" (ValueError "no"))).
  reflexivity.
Defined.

(** A new name in the registry as built at start-up goes to the end. *)
Lemma register_tool_keys_witness :
  ToolHandler.keys
    (ToolHandler.register_tool (constant_tool "echo" ∅)
       (@ToolHandler.init strict_runtime down_collection))
  = ToolHandler.keys (@ToolHandler.init strict_runtime down_collection) ++ ["echo"].
Proof.
  apply (proj1 (proj2 (register_tool_keys
                         (@ToolHandler.init strict_runtime down_collection)
                         (constant_tool "echo" ∅)))).
  by intros [[=]|[]%elem_of_nil]%elem_of_cons.
Defined.

(** Three registrations, two of them under the name [a]. *)
Lemma registry_invariant_witness :
  BaseTool.name (raising_tool "a" (ValueError "no")) = "a" ∧
  raising_tool "a" (ValueError "no")
  ∈ [constant_tool "a" ∅; constant_tool "b" ∅; raising_tool "a" (ValueError "no")].
Proof.
  apply (proj1 (proj2 (proj2 (registry_invariant
           [constant_tool "a" ∅; constant_tool "b" ∅; raising_tool "a" (ValueError "no")])))
           "a" (raising_tool "a" (ValueError "no"))).
  reflexivity.
Defined.

(** The name [nonexistent] in the registry as built at start-up. *)
Lemma get_tools_name_status_witness :
  Server.get_tools_name
    (@ToolHandler.init strict_runtime down_collection) "nonexistent" []
  = ({| HTTPResponse.status_code := 404;
        HTTPResponse.content := HTTPResponse.Detail ("Tool '" +:+ "nonexistent" +:+ "' not found") |},
     []).
Proof.
  apply (proj1 (proj2 (get_tools_name_status
                         (@ToolHandler.init strict_runtime down_collection)
                         "nonexistent" []))).
  by intros [[=]|[]%elem_of_nil]%elem_of_cons.
Defined.

(** A server that runs: the reply is returned. *)
Lemma client_health_check_spec_witness :
  @MCPClient.health_check strict_runtime "http://localhost:8000"
    (replying_session (VDict healthy_reply)) []
  = (Return (VDict healthy_reply), [] ++ [HttpGet ("http://localhost:8000" +:+ "/health")]).
Proof.
  destruct (@client_health_check_spec strict_runtime "http://localhost:8000"
              (replying_session (VDict healthy_reply)) [])
    as (result & Hcheck & Hreply & _).
  by rewrite <-(Hreply healthy_reply eq_refl).
Defined.

(** A server that cannot be reached: the empty list. *)
Lemma list_available_tools_spec_witness :
  @MCPClient.list_available_tools strict_runtime "http://localhost:8000"
    unreachable_session []
  = (Return (VList []), [] ++ [HttpGet ("http://localhost:8000" +:+ "/tools")]).
Proof.
  destruct (@list_available_tools_spec strict_runtime "http://localhost:8000"
              unreachable_session [])
    as (tools & Hlist & _ & _ & _ & Hfailed).
  by rewrite <-Hfailed.
Defined.

(** A server that cannot be reached: the failure result. *)
Lemma execute_custom_tool_spec_witness :
  ∃ result,
    @MCPClient.execute_custom_tool strict_runtime "http://localhost:8000"
      unreachable_session "echo" ∅ None []
    = (Return (VDict result),
       [] ++ [HttpPost ("http://localhost:8000" +:+ "/execute")
                (VDict {[ "tool_name" := VStr "echo";
                          "inputs" := VDict ∅;
                          "metadata" := VDict (default ∅ None) ]})]) ∧
    result !! "success" = Some (VBool false) ∧
    result !! "metadata" = Some (VDict {[ "tool_name" := VStr "echo" ]}).
Proof.
  destruct (@execute_custom_tool_spec strict_runtime "http://localhost:8000"
              unreachable_session "echo" ∅ None [])
    as (result & Hexec & _ & Hfailed).
  exists result. split; [done|].
  destruct Hfailed as (Hsuccess & _ & Hmetadata & _); [done|]. by split.
Defined.

(** A reply that claims success and carries no data. *)
Lemma client_search_documents_spec_witness :
  ∃ result,
    @MCPClient.search_documents strict_runtime "http://localhost:8000"
      (replying_session (VDict {[ "success" := VBool true; "data" := VNone ]}))
      None 10 0 None []
    = (Return (VDict result),
       [] ++ [HttpPost ("http://localhost:8000" +:+ "/execute")
                (VDict (MCPClient.search_request None 10 0 None))]) ∧
    result !! "success" = Some (VBool false) ∧
    result !! "data" = Some (VList []) ∧
    result !! "metadata" = Some (VDict ∅).
Proof.
  destruct (@client_search_documents_spec strict_runtime "http://localhost:8000"
              (replying_session (VDict {[ "success" := VBool true; "data" := VNone ]}))
              None 10 0 None [])
    as (_ & _ & result & Hsearch & Hreply & _).
  exists result. split; [done|].
  destruct (Hreply {[ "success" := VBool true; "data" := VNone ]} eq_refl)
    as (_ & _ & Hnull).
  by apply Hnull.
Defined.

(** A server that answers with a well-formed result. *)
Lemma process_prompt_keeps_prompt_witness :
  ∃ result metadata,
    @MCPClient.process_prompt strict_runtime "http://localhost:8000"
      (replying_session (VDict sample_reply)) "python" []
    = (Return (VDict result),
       [] ++ [HttpPost ("http://localhost:8000" +:+ "/execute")
                (VDict (@prompt_request strict_runtime "python"))]) ∧
    result !! "metadata" = Some (VDict metadata) ∧
    metadata !! "original_prompt" = Some (VStr "python").
Proof.
  destruct (@process_prompt_keeps_prompt strict_runtime "http://localhost:8000"
              (replying_session (VDict sample_reply)) "python" [])
    as (result & Hprompt & Hkeeps).
  assert (Hmetadata : ∃ metadata, result !! "metadata" = Some (VDict metadata) ∧ metadata ≠ ∅).
  { pose proof Hprompt as Hvalue. vm_compute in Hvalue. injection Hvalue as <-.
    eexists. split; [by vm_compute|]. by vm_compute. }
  destruct Hmetadata as (metadata & Hmetadata & Hne).
  exists result, metadata. split; [done|]. split; [done|]. by apply Hkeeps.
Defined.

(** The greatest limit that the schema allows is accepted. *)
Lemma schema_matches_validation_witness :
  @MongoDBSearchInput.validate_limit strict_runtime {[ "limit" := VInt 100 ]} = inr 100.
Proof.
  destruct (@schema_matches_validation strict_runtime)
    as (lo & hi & least & dflt_limit & dflt_skip & Hlo & Hhi & _ & _ & _ & _ & _ & _ & _ & Hall).
  vm_compute in Hlo, Hhi. injection Hlo as <-. injection Hhi as <-.
  apply (proj1 (Hall {[ "limit" := VInt 100 ]}) 100); [reflexivity|lia].
Defined.

(** A request for an unknown tool, with metadata of its own: the failure
    result carries an error text, and the request metadata is merged
    into the response. *)
Lemma execute_metadata_overlay_witness :
  ∃ response,
    @Server.execute_tool strict_runtime (@ToolHandler.init strict_runtime down_collection)
      {| MCPRequest.tool_name := "nonexistent";
         MCPRequest.inputs := ∅;
         MCPRequest.metadata := {[ "x" := VInt 1 ]} |} []
    = (Return response, []) ∧
    MCPResponse.metadata response !! "x" = Some (VInt 1) ∧
    MCPResponse.metadata response !! "available_tools"
    = Some (VList [VStr "mongodb_search"]).
Proof.
  destruct (proj1 (@execute_metadata_overlay strict_runtime)
              (@ToolHandler.init strict_runtime down_collection)
              {| MCPRequest.tool_name := "nonexistent";
                 MCPRequest.inputs := ∅;
                 MCPRequest.metadata := {[ "x" := VInt 1 ]} |} [])
    as (result & response & log' & Hdispatch & Hserver & Hmerged & _).
  assert (Hresult : ToolOutput.error result = Some "Tool 'nonexistent' not found" ∧
                    ToolOutput.metadata result
                    = {[ "available_tools" := VList [VStr "mongodb_search"] ]} ∧
                    log' = []).
  { vm_compute in Hdispatch. injection Hdispatch as <- <-.
    split; [by vm_compute|]. split; [by vm_compute|done]. }
  destruct Hresult as (Herror & Hmetadata & ->).
  destruct (Hmerged _ Herror) as [_ Hlookup].
  exists response. split; [exact Hserver|].
  rewrite !Hlookup, Hmetadata. split; by vm_compute.
Defined.

(** A search that succeeds in the store, asked through the server. *)
Lemma post_execute_search_witness :
  ∃ response,
    @Server.post_execute strict_runtime
      (@ToolHandler.init strict_runtime (paged_collection [record_xab]))
      {| MCPRequest.tool_name := "mongodb_search";
         MCPRequest.inputs := ∅;
         MCPRequest.metadata := ∅ |} []
    = ({| HTTPResponse.status_code := 200;
          HTTPResponse.content := HTTPResponse.Model response |},
       [FindCall ∅ 0 10; CountCall ∅]) ∧
    MCPResponse.success response = false ∧
    MCPResponse.metadata response = {[ "tool_name" := VStr "mongodb_search" ]}.
Proof.
  destruct (@post_execute_search strict_runtime (paged_collection [record_xab]) ∅ ∅ [])
    as (out & log' & response & Hexec & Hpost & _ & Hsucceeded).
  assert (Hout : ToolOutput.success out = true ∧ log' = [FindCall ∅ 0 10; CountCall ∅]).
  { vm_compute in Hexec. injection Hexec as <- <-. split; by vm_compute. }
  destruct Hout as [Hsuccess ->].
  exists response. split; [exact Hpost|].
  by rewrite (Hsucceeded Hsuccess).
Defined.
